(** * smTIRF_simulation_2.py: pulsating-dot frame generator

    A shallow embedding of [smTIRF_simulation_2.py].

    Number model.  Python [int] values (sizes, counts, frame numbers) are
    [Z].  Python [float] values (coordinates, velocities, phases, the
    pulsation signal) are real numbers [R]: [math.sin] is [sin], [+], [*]
    and [/] are the field operations, comparisons are the order of [R], and
    [int(_)] is truncation toward zero.  An [int] that meets a [float] in
    an expression is injected with [IZR], as Python does with the implicit
    conversion.  The values the program produces are finite, so the special
    floats (infinities, NaN) have no counterpart here.  Rounding to
    binary64 is not modelled: the statements below rest on order,
    clamping, negation and truncation, not on the exact value of a sum or
    a product.  The two products
    that [create_dots] truncates are also evaluated in binary64
    arithmetic, where they are the same whole numbers as over [R].

    Effects.  The [random] module is an opaque source threaded as explicit
    state; [cv2.circle] and [cv2.GaussianBlur] are opaque functions on the
    pixel buffer; mutation of the dots inside [draw_frame] is explicit
    state passing (the updated list is returned). *)

From Stdlib Require Import Reals ZArith List String Bool Lia Lra.
From Stdlib Require Import PrimFloat.
Import ListNotations.

Local Open Scope Z_scope.
Local Open Scope R_scope.

(** ** Module-level constants *)

Definition WIDTH : Z := 512.
Definition HEIGHT : Z := 512.
Definition FRAMES : Z := 500.
Definition NUM_DOTS : Z := 200.
Definition MOVING_PERCENTAGE : R := 0.1.
Definition STATIC_BRIGHT_PERCENTAGE : R := 0.05.
Definition MAX_DOT_SIZE : Z := 5.
Definition MOVE_SPEED : Z := 2.
Definition BLUR_KERNEL_SIZE : Z := 15.
Definition BLUR_SIGMA : R := 5.0.

(** [NUM_DOTS * MOVING_PERCENTAGE] and
    [NUM_DOTS * STATIC_BRIGHT_PERCENTAGE] as Python evaluates them: the
    literals rounded to binary64, the integer converted, the product
    rounded. *)
#[warnings="-inexact-float"]
Definition binary64_moving_product : float := (200 * 0.1)%float.
#[warnings="-inexact-float"]
Definition binary64_static_bright_product : float := (200 * 0.05)%float.

(** ** Python built-ins on numbers *)

(** [min(a, b)]: the first argument unless the second is strictly smaller. *)
Definition py_min (a b : R) : R := if Rlt_dec b a then b else a.

(** [max(a, b)]: the first argument unless the second is strictly larger. *)
Definition py_max (a b : R) : R := if Rgt_dec b a then b else a.

(** [int(r)] on a float: truncation toward zero. *)
Definition py_int (r : R) : Z :=
  if Rle_dec 0 r then Int_part r else (- Int_part (- r))%Z.

(** [a <= b] and [a >= b] as the booleans Python computes. *)
Definition py_le (a b : R) : bool := if Rle_dec a b then true else false.
Definition py_ge (a b : R) : bool := if Rge_dec a b then true else false.

(** ** class Dot *)

Record Dot : Type := mkDot {
  x : R;
  y : R;
  initial_x : R;
  initial_y : R;
  is_moving : bool;
  is_static_bright : bool;
  phase : R;
  dx : R;
  dy : R
}.

(** Attribute assignments [self.x = v], [self.y = v], [self.dx = v],
    [self.dy = v]. *)
Definition set_x (d : Dot) (v : R) : Dot :=
  mkDot v (y d) (initial_x d) (initial_y d) (is_moving d)
        (is_static_bright d) (phase d) (dx d) (dy d).
Definition set_y (d : Dot) (v : R) : Dot :=
  mkDot (x d) v (initial_x d) (initial_y d) (is_moving d)
        (is_static_bright d) (phase d) (dx d) (dy d).
Definition set_dx (d : Dot) (v : R) : Dot :=
  mkDot (x d) (y d) (initial_x d) (initial_y d) (is_moving d)
        (is_static_bright d) (phase d) v (dy d).
Definition set_dy (d : Dot) (v : R) : Dot :=
  mkDot (x d) (y d) (initial_x d) (initial_y d) (is_moving d)
        (is_static_bright d) (phase d) (dx d) v.

(** The two [if] blocks of [Dot.update], statement by statement: the
    velocity is negated first, the coordinate is clamped second. *)
Definition bounce_x (d : Dot) : Dot :=
  if py_le (x d) 0 || py_ge (x d) (IZR WIDTH) then
    let d1 := set_dx d (dx d * -1) in
    set_x d1 (py_max 0 (py_min (IZR WIDTH) (x d1)))
  else d.

Definition bounce_y (d : Dot) : Dot :=
  if py_le (y d) 0 || py_ge (y d) (IZR HEIGHT) then
    let d1 := set_dy d (dy d * -1) in
    set_y d1 (py_max 0 (py_min (IZR HEIGHT) (y d1)))
  else d.

(** [Dot.update(self, frame_num)], returning the dot after the call. *)
Definition update (d : Dot) (frame_num : Z) : Dot :=
  if is_moving d then
    let d1 := set_x d (x d + dx d) in
    let d2 := set_y d1 (y d1 + dy d1) in
    bounce_y (bounce_x d2)
  else d.

(** [Dot.get_size(self, frame_num)]. *)
Definition get_size (d : Dot) (frame_num : Z) : Z :=
  if is_static_bright d then (MAX_DOT_SIZE * 2)%Z
  else
    let pulse := sin (IZR frame_num * 0.2 + phase d) in
    let size := IZR MAX_DOT_SIZE * (pulse + 1) / 2 in
    py_int size.

(** [Dot.is_true_event(self)]. *)
Definition is_true_event (d : Dot) : bool :=
  negb (is_moving d) && negb (is_static_bright d).

(** ** The manifest: [Dot.to_dict] and [save_dot_list] *)

(** The values a manifest record holds: numbers and booleans. *)
Inductive JsonValue : Type :=
| JNumber (r : R)
| JBool (b : bool).

(** A Python dict literal, as its key/value pairs in insertion order. *)
Definition PyDict : Type := list (string * JsonValue).

(** [d[key]], [None] standing for [KeyError]. *)
Fixpoint dict_get (key : string) (d : PyDict) : option JsonValue :=
  match d with
  | [] => None
  | (k, v) :: rest => if String.eqb k key then Some v else dict_get key rest
  end.

(** [Dot.to_dict(self)]. *)
Definition to_dict (d : Dot) : PyDict :=
  [ ("initial_x"%string, JNumber (initial_x d));
    ("initial_y"%string, JNumber (initial_y d));
    ("is_true_event"%string, JBool (is_true_event d));
    ("is_moving"%string, JBool (is_moving d));
    ("is_static_bright"%string, JBool (is_static_bright d));
    ("is_pulsating"%string, JBool (negb (is_static_bright d))) ].

(** [sum(...)] over integers. *)
Definition py_sum (l : list Z) : Z := fold_left Z.add l 0%Z.

(** [len(...)]. *)
Definition py_len {A : Type} (l : list A) : Z := Z.of_nat (List.length l).

(** What [save_dot_list] prints: the two counts and the total. *)
Record Summary : Type := mkSummary {
  true_events : Z;
  false_events : Z;
  total_dots : Z
}.

(** [save_dot_list(dots)]: the list handed to [json.dump] and the printed
    summary. *)
Definition save_dot_list (dots : list Dot) : list PyDict * Summary :=
  let dot_list := map to_dict dots in
  let true_events :=
    py_sum (map (fun _ => 1%Z) (filter is_true_event dots)) in
  let false_events := (py_len dots - true_events)%Z in
  (dot_list, mkSummary true_events false_events (py_len dots)).

(** ** The category of the specification

    The source selects behaviour by the two flags; the specification
    speaks of one category per dot.  The three constructor calls of
    [create_dots] use the flag pairs below; the pair with both flags set
    is never built there and has no category. *)

Inductive Category : Type :=
| Moving
| StaticBright
| StationaryPulsating.

Definition category_of (d : Dot) : option Category :=
  match is_moving d, is_static_bright d with
  | true, false => Some Moving
  | false, true => Some StaticBright
  | false, false => Some StationaryPulsating
  | true, true => None
  end.

(** The size formula in the specification's words, with its parameters
    explicit: constant [2 * max_size] for a static-bright dot, otherwise
    [max_size * (sin (frame_index * pulsation_rate + phase) + 1) / 2]
    truncated toward zero. *)
Definition spec_current_size (max_size : Z) (pulsation_rate : R)
    (static_bright : bool) (ph : R) (frame_index : Z) : Z :=
  if static_bright then (2 * max_size)%Z
  else py_int (IZR max_size
               * (sin (IZR frame_index * pulsation_rate + ph) + 1) / 2).

(** ** The pixel buffer *)

(** A [numpy] array of shape (rows, columns, channels). *)
Definition Frame : Type := list (list (list Z)).

(** [np.zeros((h, w, c), dtype=np.uint8)]. *)
Definition np_zeros (h w c : Z) : Frame :=
  repeat (repeat (repeat 0%Z (Z.to_nat c)) (Z.to_nat w)) (Z.to_nat h).

(** [range(n)]. *)
Definition py_range (n : Z) : list Z := map Z.of_nat (seq 0 (Z.to_nat n)).

(** ** External collaborators

    The [random] module ([Rng] is its state, [randint] and [uniform] are
    [random.randint] and [random.uniform]),
    [cv2.circle(img, center, radius, color, thickness)], returning the
    image it has drawn on, and [cv2.GaussianBlur(src, ksize, sigmaX)]. *)

Class External : Type := {
  Rng : Type;
  randint : Z -> Z -> Rng -> Z * Rng;
  uniform : R -> R -> Rng -> R * Rng;
  cv2_circle : Frame -> Z * Z -> Z -> Z * Z * Z -> Z -> Frame;
  cv2_GaussianBlur : Frame -> Z * Z -> R -> Frame
}.

(** Stand-ins used to run the model on examples: a counter as random
    state, with [randint] and [uniform] returning the lower end of their
    range; a [circle] that records its call as one more row of the buffer;
    the identity as blur. *)

Definition demo_randint (a b : Z) (s : nat) : Z * nat := (a, S s).
Definition demo_uniform (a b : R) (s : nat) : R * nat := (a, S s).
Definition demo_circle (img : Frame) (center : Z * Z) (radius : Z)
    (color : Z * Z * Z) (thickness : Z) : Frame :=
  img ++ [[[fst center; snd center; radius]]].
Definition demo_blur (src : Frame) (ksize : Z * Z) (sigma : R) : Frame := src.
Definition demo : External :=
  Build_External nat demo_randint demo_uniform demo_circle demo_blur.

Section Program.

Context `{Ext : External}.

(** *** Computations that draw random numbers *)

Definition M (A : Type) : Type := Rng -> A * Rng.

Definition ret {A : Type} (a : A) : M A := fun s => (a, s).

Definition bind {A B : Type} (m : M A) (k : A -> M B) : M B :=
  fun s => let (a, s1) := m s in k a s1.

Notation "v <- m ;; k" := (bind m (fun v => k))
  (at level 61, m at next level, right associativity).

(** [Dot.__init__(self, x, y, is_moving, is_static_bright)]. *)
Definition Dot_init (x0 y0 : R) (moving static_bright : bool) : M Dot :=
  ph <- uniform 0 (2 * PI) ;;
  if moving then
    vx <- uniform (- IZR MOVE_SPEED) (IZR MOVE_SPEED) ;;
    vy <- uniform (- IZR MOVE_SPEED) (IZR MOVE_SPEED) ;;
    ret (mkDot x0 y0 x0 y0 moving static_bright ph vx vy)
  else
    ret (mkDot x0 y0 x0 y0 moving static_bright ph 0 0).

(** [for i in range(n): dots.append(<mk>)]. *)
Fixpoint append_loop (n : nat) (mk : M Dot) (dots : list Dot)
    : M (list Dot) :=
  match n with
  | O => ret dots
  | S k => d <- mk ;; append_loop k mk (dots ++ [d])
  end.

(** The bodies of the three loops of [create_dots]. *)
Definition new_moving_dot : M Dot :=
  x0 <- randint 50 (WIDTH - 50) ;;
  y0 <- randint 50 (HEIGHT - 50) ;;
  Dot_init (IZR x0) (IZR y0) true false.

Definition new_static_bright_dot : M Dot :=
  x0 <- randint 0 WIDTH ;;
  y0 <- randint 0 HEIGHT ;;
  Dot_init (IZR x0) (IZR y0) false true.

Definition new_pulsating_dot : M Dot :=
  x0 <- randint 0 WIDTH ;;
  y0 <- randint 0 HEIGHT ;;
  Dot_init (IZR x0) (IZR y0) false false.

(** The three counts [create_dots] computes, as functions of the module
    constants they read. *)
Definition num_moving_of (num_dots : Z) (moving_pct : R) : Z :=
  py_int (IZR num_dots * moving_pct).
Definition num_static_bright_of (num_dots : Z) (static_pct : R) : Z :=
  py_int (IZR num_dots * static_pct).
Definition num_pulsating_of (num_dots : Z) (moving_pct static_pct : R) : Z :=
  (num_dots - num_moving_of num_dots moving_pct
   - num_static_bright_of num_dots static_pct)%Z.

(** The body of [create_dots], the constants [NUM_DOTS],
    [MOVING_PERCENTAGE] and [STATIC_BRIGHT_PERCENTAGE] taken as
    arguments.  [range] of a negative count is empty. *)
Definition create_dots_with (num_dots : Z) (moving_pct static_pct : R)
    : M (list Dot) :=
  let dots := [] in
  let num_moving := num_moving_of num_dots moving_pct in
  let num_static_bright := num_static_bright_of num_dots static_pct in
  let num_pulsating := num_pulsating_of num_dots moving_pct static_pct in
  dots <- append_loop (Z.to_nat num_moving) new_moving_dot dots ;;
  dots <- append_loop (Z.to_nat num_static_bright) new_static_bright_dot
            dots ;;
  dots <- append_loop (Z.to_nat num_pulsating) new_pulsating_dot dots ;;
  ret dots.

(** [create_dots()]. *)
Definition create_dots : M (list Dot) :=
  create_dots_with NUM_DOTS MOVING_PERCENTAGE STATIC_BRIGHT_PERCENTAGE.

(** *** Rendering *)

(** One iteration of the loop of [draw_frame]: the state is the buffer
    and the dots already visited, in their updated state. *)
Definition draw_dot (frame_num : Z) (st : Frame * list Dot) (dot : Dot)
    : Frame * list Dot :=
  let dot1 := update dot frame_num in
  let size := get_size dot1 frame_num in
  let frame1 :=
    if (size >? 0)%Z then
      cv2_circle (fst st) (py_int (x dot1), py_int (y dot1)) size
                 (255, 255, 255)%Z (-1)%Z
    else fst st in
  (frame1, snd st ++ [dot1]).

(** The buffer and the dots after the loop of [draw_frame], before the
    blur. *)
Definition draw_loop (dots : list Dot) (frame_num : Z)
    : Frame * list Dot :=
  let frame := np_zeros HEIGHT WIDTH 3 in
  fold_left (draw_dot frame_num) dots (frame, []).

(** [draw_frame(dots, frame_num)]: the blurred frame and the dots as the
    call leaves them. *)
Definition draw_frame (dots : list Dot) (frame_num : Z)
    : Frame * list Dot :=
  let (frame, dots1) := draw_loop dots frame_num in
  (cv2_GaussianBlur frame (BLUR_KERNEL_SIZE, BLUR_KERNEL_SIZE) BLUR_SIGMA,
   dots1).

(** *** The driver *)

(** One iteration of the frame loop of [main]. *)
Definition main_step (st : list Frame * list Dot) (frame_num : Z)
    : list Frame * list Dot :=
  let (frame, dots1) := draw_frame (snd st) frame_num in
  (fst st ++ [frame], dots1).

(** The frame loop of [main] over [range(frames)]. *)
Definition frame_loop (dots : list Dot) (frames : Z)
    : list Frame * list Dot :=
  fold_left main_step (py_range frames) ([], dots).

(** What [main] produces. *)
Record Output : Type := mkOutput {
  out_dot_list : list PyDict;
  out_summary : Summary;
  out_frames : list Frame;
  out_dots : list Dot
}.

(** [main()]: the manifest written by [save_dot_list], the frames handed
    to [cv2.imwritemulti], and the dots as the run leaves them. *)
Definition main : M Output :=
  dots <- create_dots ;;
  let (dot_list, summary) := save_dot_list dots in
  let (frames, dots1) := frame_loop dots FRAMES in
  ret (mkOutput dot_list summary frames dots1).

(** The dots after the render calls for frame numbers [0 .. k-1]. *)
Fixpoint dots_after (dots : list Dot) (k : nat) : list Dot :=
  match k with
  | O => dots
  | S j => snd (draw_frame (dots_after dots j) (Z.of_nat j))
  end.

(** The test [size > 0] of [draw_frame] on a dot already updated, and the
    [cv2.circle] call made for such a dot. *)
Definition visible (frame_num : Z) (d : Dot) : bool :=
  (get_size d frame_num >? 0)%Z.

Definition paint (frame_num : Z) (frame : Frame) (d : Dot) : Frame :=
  cv2_circle frame (py_int (x d), py_int (y d)) (get_size d frame_num)
             (255, 255, 255)%Z (-1)%Z.

(** *** Auxiliary notions used in the statements *)
(** A dot after [k] calls of [update], with frame numbers [0 .. k-1]. *)
Fixpoint advance_times (k : nat) (d : Dot) : Dot :=
  match k with
  | O => d
  | S j => update (advance_times j d) (Z.of_nat j)
  end.

(** A buffer of [h] rows of [w] pixels of [c] channels, all zero. *)
Definition all_zero (h w c : nat) (frame : Frame) : Prop :=
  List.length frame = h
  /\ Forall (fun row => List.length row = w
                        /\ Forall (fun px => px = repeat 0%Z c) row) frame.

(** A dot as [Dot.__init__] leaves it when called with the flags [m] and
    [sb]: the flags are stored and the initial position is the position. *)
Definition created_as (m sb : bool) (d : Dot) : Prop :=
  is_moving d = m /\ is_static_bright d = sb
  /\ initial_x d = x d /\ initial_y d = y d.

(** The flags of a manifest record. *)
Definition record_flags (r : PyDict) : list (option JsonValue) :=
  [ dict_get "is_true_event" r; dict_get "is_moving" r;
    dict_get "is_static_bright" r; dict_get "is_pulsating" r ].

(** The flags a record must hold for each category. *)
Definition flags_of_category (c : Category) : list (option JsonValue) :=
  match c with
  | Moving =>
      [Some (JBool false); Some (JBool true);
       Some (JBool false); Some (JBool true)]
  | StaticBright =>
      [Some (JBool false); Some (JBool false);
       Some (JBool true); Some (JBool false)]
  | StationaryPulsating =>
      [Some (JBool true); Some (JBool false);
       Some (JBool false); Some (JBool true)]
  end.

(** The condition of a bounce on an axis with bound [bound]:
    [v <= 0 or v >= bound]. *)
Definition hits (v : R) (bound : Z) : Prop := v <= 0 \/ v >= IZR bound.

(** The dot of [Dot.update] after the two additions, before the two
    bounce tests. *)
Definition advanced (d : Dot) : Dot :=
  set_y (set_x d (x d + dx d)) (y d + dy d).

(** A moving dot one step from leaving the frame on both axes, and a
    static-bright dot at the same place. *)
Definition corner_dot : Dot := mkDot 511 1 100 100 true false 0 2 (-2).
Definition bright_dot : Dot := mkDot 511 1 511 1 false true 4 0 0.

(** Pulsating dots: one whose phase is 0, one whose signal is at its
    minimum at frame 0 and just past it at frame 1. *)
Definition zero_phase_dot : Dot := mkDot 30 40 30 40 false false 0 0 0.
Definition faint_dot : Dot :=
  mkDot 30 40 30 40 false false (3 * (PI / 2)) 0 0.

(** The value [pulse] of [Dot.get_size]. *)
Definition pulse_of (d : Dot) (frame_num : Z) : R :=
  sin (IZR frame_num * 0.2 + phase d).

(** *** Notions used in the further properties *)

(** A dot whose position is inside the frame, edges included. *)
Definition in_frame (d : Dot) : Prop :=
  0 <= x d <= IZR WIDTH /\ 0 <= y d <= IZR HEIGHT.

(** The positions [create_dots] asks for when it creates a moving dot:
    [randint(50, WIDTH - 50)] and [randint(50, HEIGHT - 50)]. *)
Definition in_margin (d : Dot) : Prop :=
  50 <= x d <= IZR (WIDTH - 50) /\ 50 <= y d <= IZR (HEIGHT - 50).

(** The velocities [Dot.__init__] asks for:
    [uniform(-MOVE_SPEED, MOVE_SPEED)]. *)
Definition within_speed (d : Dot) : Prop :=
  - IZR MOVE_SPEED <= dx d <= IZR MOVE_SPEED
  /\ - IZR MOVE_SPEED <= dy d <= IZR MOVE_SPEED.

(** What the documentation of [random] promises: [randint(a, b)] is an
    integer of [[a, b]] and [uniform(a, b)] a float of [[a, b]], for
    [a <= b]. *)
Definition rng_in_range : Prop :=
  (forall (a b : Z) (s : Rng),
      (a <= b)%Z -> (a <= fst (randint a b s) <= b)%Z)
  /\ (forall (a b : R) (s : Rng),
        a <= b -> a <= fst (uniform a b s) <= b).

(** The test of the printed summary line "moving or static bright". *)
Definition is_false_event (d : Dot) : bool :=
  is_moving d || is_static_bright d.

(** What [create_dots] asks of the random source for a dot: a position
    inside the frame, inside the margin for a moving dot; velocity
    components within the speed limit, zero for a dot that does not move;
    a phase in [[0, 2 pi]]. *)
Definition well_started (d : Dot) : Prop :=
  in_frame d /\ within_speed d /\ 0 <= phase d <= 2 * PI
  /\ (is_moving d = true -> in_margin d)
  /\ (is_moving d = false -> dx d = 0 /\ dy d = 0).

End Program.

(** * Properties *)

(** ** Python built-ins *)

Lemma py_le_true (a b : R) : py_le a b = true <-> a <= b.
Proof.
  unfold py_le. destruct (Rle_dec a b); split; intros; try easy.
Qed.

Lemma py_ge_true (a b : R) : py_ge a b = true <-> a >= b.
Proof.
  unfold py_ge. destruct (Rge_dec a b); split; intros; try easy.
Qed.

(** [max(lo, min(hi, v))] is the usual clamp. *)
Lemma py_clamp_bounds (lo hi v : R) :
  lo <= hi -> lo <= py_max lo (py_min hi v) <= hi.
Proof.
  intros Hlh. unfold py_max, py_min.
  destruct (Rlt_dec v hi); destruct (Rgt_dec _ lo); lra.
Qed.

Lemma py_clamp_Rmax_Rmin (lo hi v : R) :
  py_max lo (py_min hi v) = Rmax lo (Rmin hi v).
Proof.
  unfold py_max, py_min, Rmax, Rmin.
  destruct (Rlt_dec v hi); destruct (Rle_dec hi v); try lra;
    match goal with
    | |- context [Rgt_dec ?a ?b] =>
        destruct (Rgt_dec a b); destruct (Rle_dec b a); lra
    end.
Qed.

Lemma py_clamp_inside (lo hi v : R) :
  lo < v < hi -> py_max lo (py_min hi v) = v.
Proof.
  intros [H1 H2]. unfold py_max, py_min.
  destruct (Rlt_dec v hi); [| lra]. destruct (Rgt_dec v lo); lra.
Qed.

(** [int(r)] for a non-negative [r] is the integer [z] with
    [z <= r < z + 1]. *)
Lemma py_int_nonneg (r : R) (z : Z) :
  IZR z <= r < IZR z + 1 -> 0 <= r -> py_int r = z.
Proof.
  intros [H1 H2] H0. unfold py_int.
  destruct (Rle_dec 0 r); [| contradiction].
  symmetry. apply Int_part_spec. lra.
Qed.

Lemma py_int_IZR (z : Z) : py_int (IZR z) = z.
Proof.
  unfold py_int. destruct (Rle_dec 0 (IZR z)).
  - symmetry. apply Int_part_spec. lra.
  - rewrite <- opp_IZR.
    replace (Int_part (IZR (- z))) with (- z)%Z; [lia |].
    apply Int_part_spec. lra.
Qed.

(** For a non-negative float [int] is [floor]. *)
Lemma py_int_floor (r : R) : 0 <= r -> py_int r = Int_part r.
Proof.
  intros H. unfold py_int. destruct (Rle_dec 0 r); [reflexivity | lra].
Qed.

Lemma py_int_range (r : R) (lo hi : Z) :
  (0 <= lo)%Z -> IZR lo <= r <= IZR hi -> (lo <= py_int r <= hi)%Z.
Proof.
  intros Hlo [H1 H2].
  assert (H0 : 0 <= r) by (apply IZR_le in Hlo; lra).
  rewrite (py_int_floor r H0).
  destruct (base_Int_part r) as [Ha Hb].
  split.
  - apply Z.lt_succ_r. apply lt_IZR. rewrite succ_IZR. lra.
  - apply le_IZR. lra.
Qed.

(** In binary64 the two products of [create_dots] are exactly 20.0 and
    10.0, the values of the real products. *)
Lemma binary64_products_exact :
  binary64_moving_product = 20%float
  /\ binary64_static_bright_product = 10%float.
Proof. split; vm_compute; reflexivity. Qed.

(** ** [Dot.update] *)

Lemma hits_test (v : R) (bound : Z) :
  py_le v 0 || py_ge v (IZR bound) = true <-> hits v bound.
Proof.
  unfold hits. rewrite orb_true_iff, py_le_true, py_ge_true. tauto.
Qed.

Lemma classic_hits (v : R) (bound : Z) : hits v bound \/ ~ hits v bound.
Proof.
  unfold hits. destruct (Rle_dec v 0); [tauto |].
  destruct (Rge_dec v (IZR bound)); tauto.
Qed.

Lemma bounce_x_hit (e : Dot) :
  hits (x e) WIDTH ->
  bounce_x e
  = set_x (set_dx e (- dx e)) (py_max 0 (py_min (IZR WIDTH) (x e))).
Proof.
  intros H. apply hits_test in H. unfold bounce_x. rewrite H. simpl.
  replace (dx e * -1) with (- dx e) by ring. reflexivity.
Qed.

Lemma bounce_x_miss (e : Dot) : ~ hits (x e) WIDTH -> bounce_x e = e.
Proof.
  intros H. unfold bounce_x.
  destruct (py_le (x e) 0 || py_ge (x e) (IZR WIDTH)) eqn:E;
    [| reflexivity].
  apply hits_test in E. contradiction.
Qed.

Lemma bounce_y_hit (e : Dot) :
  hits (y e) HEIGHT ->
  bounce_y e
  = set_y (set_dy e (- dy e)) (py_max 0 (py_min (IZR HEIGHT) (y e))).
Proof.
  intros H. apply hits_test in H. unfold bounce_y. rewrite H. simpl.
  replace (dy e * -1) with (- dy e) by ring. reflexivity.
Qed.

Lemma bounce_y_miss (e : Dot) : ~ hits (y e) HEIGHT -> bounce_y e = e.
Proof.
  intros H. unfold bounce_y.
  destruct (py_le (y e) 0 || py_ge (y e) (IZR HEIGHT)) eqn:E;
    [| reflexivity].
  apply hits_test in E. contradiction.
Qed.

Lemma update_moving (d : Dot) (frame_num : Z) :
  is_moving d = true -> update d frame_num = bounce_y (bounce_x (advanced d)).
Proof. intros H. unfold update. rewrite H. reflexivity. Qed.

Lemma bounce_x_fields (e : Dot) :
  x (bounce_x e) = py_max 0 (py_min (IZR WIDTH) (x e))
  /\ (hits (x e) WIDTH -> dx (bounce_x e) = - dx e)
  /\ (~ hits (x e) WIDTH -> dx (bounce_x e) = dx e)
  /\ y (bounce_x e) = y e /\ dy (bounce_x e) = dy e.
Proof.
  destruct (classic_hits (x e) WIDTH) as [H | H].
  - rewrite (bounce_x_hit e H). simpl. tauto.
  - rewrite (bounce_x_miss e H). repeat split; try tauto.
    symmetry. apply py_clamp_inside. unfold hits in H. lra.
Qed.

Lemma bounce_y_fields (e : Dot) :
  y (bounce_y e) = py_max 0 (py_min (IZR HEIGHT) (y e))
  /\ (hits (y e) HEIGHT -> dy (bounce_y e) = - dy e)
  /\ (~ hits (y e) HEIGHT -> dy (bounce_y e) = dy e)
  /\ x (bounce_y e) = x e /\ dx (bounce_y e) = dx e.
Proof.
  destruct (classic_hits (y e) HEIGHT) as [H | H].
  - rewrite (bounce_y_hit e H). simpl. tauto.
  - rewrite (bounce_y_miss e H). repeat split; try tauto.
    symmetry. apply py_clamp_inside. unfold hits in H. lra.
Qed.

(** [Dot.update] never touches the creation-time attributes. *)
Lemma update_keeps_identity (d : Dot) (frame_num : Z) :
  initial_x (update d frame_num) = initial_x d
  /\ initial_y (update d frame_num) = initial_y d
  /\ is_moving (update d frame_num) = is_moving d
  /\ is_static_bright (update d frame_num) = is_static_bright d
  /\ phase (update d frame_num) = phase d.
Proof.
  unfold update. destruct (is_moving d) eqn:E; [| now rewrite E].
  unfold bounce_y, bounce_x.
  repeat match goal with
         | |- context [if ?b then _ else _] => destruct b
         end; simpl; auto.
Qed.

(** C1.  For a moving dot and any frame number, after [update] the
    position lies in [[0, WIDTH]] x [[0, HEIGHT]].  On each axis,
    independently of the other, the velocity component is negated when the
    coordinate after the addition is [<= 0] or [>= bound] and is left alone
    otherwise; the dot in which it has been negated still carries the
    unclamped coordinate, and the clamp into [[0, bound]] is applied to
    that dot. *)
Theorem update_moving_clamps_and_bounces (d : Dot) (frame_num : Z) :
  is_moving d = true ->
  let nx := x d + dx d in
  let ny := y d + dy d in
  let d' := update d frame_num in
  (0 <= x d' <= IZR WIDTH /\ 0 <= y d' <= IZR HEIGHT)
  /\ x d' = py_max 0 (py_min (IZR WIDTH) nx)
  /\ y d' = py_max 0 (py_min (IZR HEIGHT) ny)
  /\ (hits nx WIDTH -> dx d' = - dx d)
  /\ (~ hits nx WIDTH -> dx d' = dx d)
  /\ (hits ny HEIGHT -> dy d' = - dy d)
  /\ (~ hits ny HEIGHT -> dy d' = dy d)
  /\ d' = bounce_y (bounce_x (advanced d))
  /\ (forall e, hits (x e) WIDTH ->
        let inverted := set_dx e (dx e * -1) in
        x inverted = x e
        /\ bounce_x e
           = set_x inverted (py_max 0 (py_min (IZR WIDTH) (x inverted))))
  /\ (forall e, hits (y e) HEIGHT ->
        let inverted := set_dy e (dy e * -1) in
        y inverted = y e
        /\ bounce_y e
           = set_y inverted (py_max 0 (py_min (IZR HEIGHT) (y inverted)))).
Proof.
  intros Hm nx ny d'.
  assert (Hd : d' = bounce_y (bounce_x (advanced d)))
    by (apply update_moving; exact Hm).
  destruct (bounce_x_fields (advanced d)) as (Hx & Hdx1 & Hdx2 & Hy & Hdy).
  destruct (bounce_y_fields (bounce_x (advanced d)))
    as (Hy' & Hdy1 & Hdy2 & Hx' & Hdx').
  rewrite <- Hd in Hy', Hdy1, Hdy2, Hx', Hdx'.
  rewrite Hy in Hy', Hdy1, Hdy2. rewrite Hdy in Hdy1, Hdy2.
  rewrite Hx in Hx'. simpl in Hx', Hy', Hdx1, Hdx2, Hdy1, Hdy2.
  fold nx in Hx', Hdx1, Hdx2. fold ny in Hy', Hdy1, Hdy2.
  assert (HW : 0 <= IZR WIDTH) by (unfold WIDTH; lra).
  assert (HH : 0 <= IZR HEIGHT) by (unfold HEIGHT; lra).
  repeat split.
  - rewrite Hx'. apply py_clamp_bounds; exact HW.
  - rewrite Hx'. apply py_clamp_bounds; exact HW.
  - rewrite Hy'. apply py_clamp_bounds; exact HH.
  - rewrite Hy'. apply py_clamp_bounds; exact HH.
  - exact Hx'.
  - exact Hy'.
  - intros H. rewrite Hdx'. auto.
  - intros H. rewrite Hdx'. auto.
  - exact Hdy1.
  - exact Hdy2.
  - exact Hd.
  - apply hits_test in H. unfold bounce_x. rewrite H. reflexivity.
  - apply hits_test in H. unfold bounce_y. rewrite H. reflexivity.
Qed.

(** On [corner_dot] both axes bounce in the same call. *)
Lemma update_moving_clamps_and_bounces_witness :
  is_moving corner_dot = true
  /\ (0 <= x (update corner_dot 7) <= IZR WIDTH
      /\ 0 <= y (update corner_dot 7) <= IZR HEIGHT).
Proof.
  split.
  - reflexivity.
  - exact (proj1 (update_moving_clamps_and_bounces corner_dot 7 eq_refl)).
Defined.

Example update_corner_dot :
  update corner_dot 7 = mkDot 512 0 100 100 true false 0 (-2) 2.
Proof.
  rewrite update_moving by reflexivity.
  rewrite bounce_x_hit
    by (right; unfold advanced, corner_dot, WIDTH; simpl; lra).
  rewrite bounce_y_hit
    by (left; unfold advanced, corner_dot; simpl; lra).
  unfold advanced, set_x, set_y, set_dx, set_dy, corner_dot,
    py_max, py_min, WIDTH, HEIGHT. simpl.
  repeat match goal with
         | |- context [Rlt_dec ?a ?b] => destruct (Rlt_dec a b); try lra
         | |- context [Rgt_dec ?a ?b] => destruct (Rgt_dec a b); try lra
         end.
  f_equal; lra.
Qed.

(** The dots that do not move are those with a category other than
    [Moving]. *)
Lemma not_moving_iff_category (d : Dot) :
  is_moving d = false
  <-> exists c, category_of d = Some c /\ c <> Moving.
Proof.
  unfold category_of.
  destruct (is_moving d), (is_static_bright d); split; intros H;
    try reflexivity; try discriminate.
  - destruct H as (c & Hc & Hn). discriminate.
  - destruct H as (c & Hc & Hn). congruence.
  - exists StaticBright. split; congruence.
  - exists StationaryPulsating. split; congruence.
Qed.

(** C8.  For a dot that is not moving, [update] at any frame number
    returns the dot as it was: position, velocity, initial position, phase
    and both flags are unchanged. *)
Theorem update_not_moving_noop (d : Dot) (frame_num : Z) :
  is_moving d = false ->
  update d frame_num = d
  /\ x (update d frame_num) = x d /\ y (update d frame_num) = y d
  /\ dx (update d frame_num) = dx d /\ dy (update d frame_num) = dy d
  /\ initial_x (update d frame_num) = initial_x d
  /\ initial_y (update d frame_num) = initial_y d
  /\ phase (update d frame_num) = phase d
  /\ is_moving (update d frame_num) = is_moving d
  /\ is_static_bright (update d frame_num) = is_static_bright d.
Proof.
  intros H.
  assert (E : update d frame_num = d) by (unfold update; now rewrite H).
  rewrite E. repeat split.
Qed.

Lemma update_not_moving_noop_witness :
  is_moving bright_dot = false /\ update bright_dot 3 = bright_dot.
Proof.
  split.
  - reflexivity.
  - exact (proj1 (update_not_moving_noop bright_dot 3 eq_refl)).
Defined.

(** ** [Dot.is_true_event] *)

(** C4.  [is_true_event] is true exactly for the dots of category
    [StationaryPulsating], that is the dots with neither flag set; it is a
    function of the two flags alone, and [update] never changes its
    value. *)
Theorem is_true_event_iff_stationary_pulsating (d : Dot) :
  (is_true_event d = true <-> category_of d = Some StationaryPulsating)
  /\ (is_true_event d = true
      <-> is_moving d = false /\ is_static_bright d = false)
  /\ (forall e : Dot,
        is_moving e = is_moving d ->
        is_static_bright e = is_static_bright d ->
        is_true_event e = is_true_event d)
  /\ (forall frame_num : Z,
        is_true_event (update d frame_num) = is_true_event d).
Proof.
  repeat split.
  - unfold is_true_event, category_of.
    destruct (is_moving d), (is_static_bright d); simpl; congruence.
  - unfold is_true_event, category_of.
    destruct (is_moving d), (is_static_bright d); simpl; congruence.
  - unfold is_true_event in H.
    destruct (is_moving d); simpl in H; congruence.
  - unfold is_true_event in H.
    destruct (is_moving d), (is_static_bright d); simpl in H; congruence.
  - intros [H1 H2]. unfold is_true_event. now rewrite H1, H2.
  - intros e H1 H2. unfold is_true_event. now rewrite H1, H2.
  - intros frame_num.
    destruct (update_keeps_identity d frame_num) as (_ & _ & H1 & H2 & _).
    unfold is_true_event. now rewrite H1, H2.
Qed.

(** ** [Dot.get_size] *)

Lemma py_int_bracket (r : R) :
  0 <= r -> IZR (py_int r) <= r < IZR (py_int r) + 1.
Proof.
  intros H. rewrite (py_int_floor r H).
  destruct (base_Int_part r). lra.
Qed.

(** [int] truncates toward zero: the result is no farther from zero than
    the argument and differs from it by less than one. *)
Lemma py_int_toward_zero (r : R) :
  Rabs (IZR (py_int r)) <= Rabs r /\ Rabs (r - IZR (py_int r)) < 1.
Proof.
  unfold py_int. destruct (Rle_dec 0 r) as [H | H].
  - destruct (base_Int_part r) as [Ha Hb].
    assert (H0 : 0 <= IZR (Int_part r)).
    { apply IZR_le. apply Z.lt_succ_r. apply lt_IZR.
      rewrite succ_IZR. lra. }
    rewrite (Rabs_right (IZR (Int_part r))) by lra.
    rewrite (Rabs_right r) by lra.
    rewrite (Rabs_right (r - IZR (Int_part r))) by lra. lra.
  - destruct (base_Int_part (- r)) as [Ha Hb].
    assert (H0 : 0 <= IZR (Int_part (- r))).
    { apply IZR_le. apply Z.lt_succ_r. apply lt_IZR.
      rewrite succ_IZR. lra. }
    rewrite opp_IZR.
    rewrite (Rabs_left1 (- IZR (Int_part (- r)))) by lra.
    rewrite (Rabs_left1 r) by lra.
    rewrite (Rabs_left1 (r - - IZR (Int_part (- r)))) by lra. lra.
Qed.

(** The float that [Dot.get_size] truncates lies in [[0, MAX_DOT_SIZE]]. *)
Lemma scaled_pulse_range (d : Dot) (frame_num : Z) :
  0 <= IZR MAX_DOT_SIZE * (pulse_of d frame_num + 1) / 2 <= IZR MAX_DOT_SIZE.
Proof.
  unfold pulse_of, MAX_DOT_SIZE.
  destruct (SIN_bound (IZR frame_num * 0.2 + phase d)). lra.
Qed.

Lemma get_size_pulsating_eq (d : Dot) (frame_num : Z) :
  is_static_bright d = false ->
  get_size d frame_num
  = py_int (IZR MAX_DOT_SIZE * (pulse_of d frame_num + 1) / 2).
Proof. intros H. unfold get_size, pulse_of. now rewrite H. Qed.

(** C2.  For a dot that is not static-bright, [get_size] at frame number
    [n] is [MAX_DOT_SIZE * (sin (n * 0.2 + phase) + 1) / 2] truncated
    toward zero, which is the specification's formula at [max_size = 5]
    and [pulsation_rate = 0.2]; the result is the integer just below or at
    that float.  With phase 0 at frame 0 it is 2. *)
Theorem get_size_is_truncated_sinusoid (d : Dot) (frame_num : Z) :
  is_static_bright d = false ->
  let size := IZR MAX_DOT_SIZE
              * (sin (IZR frame_num * 0.2 + phase d) + 1) / 2 in
  get_size d frame_num = py_int size
  /\ get_size d frame_num
     = spec_current_size 5 0.2 false (phase d) frame_num
  /\ IZR (get_size d frame_num) <= size < IZR (get_size d frame_num) + 1
  /\ (phase d = 0 -> get_size d 0 = 2%Z).
Proof.
  intros Hs size.
  assert (E : get_size d frame_num = py_int size)
    by (apply get_size_pulsating_eq; exact Hs).
  repeat split.
  - exact E.
  - rewrite E. reflexivity.
  - rewrite E. apply py_int_bracket. apply scaled_pulse_range.
  - rewrite E. apply py_int_bracket. apply scaled_pulse_range.
  - intros Hp. rewrite (get_size_pulsating_eq d 0 Hs).
    unfold pulse_of. rewrite Hp.
    replace (IZR 0 * 0.2 + 0) with 0 by lra. rewrite sin_0.
    apply py_int_nonneg; unfold MAX_DOT_SIZE; lra.
Qed.

Lemma get_size_is_truncated_sinusoid_witness :
  is_static_bright zero_phase_dot = false
  /\ phase zero_phase_dot = 0
  /\ get_size zero_phase_dot 0 = 2%Z.
Proof.
  split; [reflexivity | split; [reflexivity |]].
  exact (proj2 (proj2 (proj2
           (get_size_is_truncated_sinusoid zero_phase_dot 0 eq_refl)))
         eq_refl).
Defined.

Lemma get_size_static_bright (d : Dot) (frame_num : Z) :
  is_static_bright d = true -> get_size d frame_num = (2 * MAX_DOT_SIZE)%Z.
Proof. intros H. unfold get_size. rewrite H. reflexivity. Qed.

(** [get_size] is the specification's [current_size] at [max_size = 5],
    [pulsation_rate = 0.2], for every dot. *)
Lemma get_size_refines_spec (d : Dot) (frame_num : Z) :
  get_size d frame_num
  = spec_current_size MAX_DOT_SIZE 0.2 (is_static_bright d) (phase d)
      frame_num.
Proof.
  unfold get_size, spec_current_size.
  destruct (is_static_bright d); reflexivity.
Qed.

(** A pulsating dot has size 0 when its signal is at most -4/5, and size
    [MAX_DOT_SIZE] when its signal is 1. *)
Lemma get_size_zero_low (d : Dot) (frame_num : Z) :
  is_static_bright d = false ->
  pulse_of d frame_num <= - 4 / 5 -> get_size d frame_num = 0%Z.
Proof.
  intros Hs Hp. rewrite (get_size_pulsating_eq d frame_num Hs).
  pose proof (scaled_pulse_range d frame_num) as [H0 H1].
  apply py_int_nonneg; [| exact H0].
  unfold MAX_DOT_SIZE in *. lra.
Qed.

Lemma get_size_max_at_one (d : Dot) (frame_num : Z) :
  is_static_bright d = false ->
  pulse_of d frame_num = 1 -> get_size d frame_num = MAX_DOT_SIZE.
Proof.
  intros Hs Hp. rewrite (get_size_pulsating_eq d frame_num Hs), Hp.
  replace (IZR MAX_DOT_SIZE * (1 + 1) / 2) with (IZR MAX_DOT_SIZE) by lra.
  apply py_int_IZR.
Qed.

(** The signal of [faint_dot]: at its minimum at frame 0, and at
    [- cos 0.2], strictly between -1 and -0.98, at frame 1. *)
Lemma pulse_faint_dot_0 : pulse_of faint_dot 0 = -1.
Proof.
  unfold pulse_of, faint_dot. simpl.
  replace (0 * 0.2 + 3 * (PI / 2)) with (3 * (PI / 2)) by lra.
  apply sin_3PI2.
Qed.

Lemma pulse_faint_dot_1 : pulse_of faint_dot 1 = - cos 0.2.
Proof.
  unfold pulse_of, faint_dot. simpl.
  replace (1 * 0.2 + 3 * (PI / 2)) with (0.2 + 3 * (PI / 2)) by lra.
  rewrite sin_plus, sin_3PI2, cos_3PI2. ring.
Qed.

Lemma cos_02_bounds : 0.98 <= cos 0.2 < 1.
Proof.
  pose proof PI2_1 as Hpi.
  split.
  - replace 0.2 with (2 * 0.1) by lra. rewrite cos_2a_sin.
    assert (H1 : 0 < sin 0.1) by (apply sin_gt_0; lra).
    assert (H2 : sin 0.1 < 0.1) by (apply sin_lt_x; lra).
    nra.
  - rewrite <- cos_0. apply cos_decreasing_1; lra.
Qed.

(** C6, as stated, fails: [faint_dot], which is not static-bright, has
    size 0 at frame 1 although its signal is not -1 there. *)
Lemma get_size_zero_off_minimum :
  is_static_bright faint_dot = false
  /\ get_size faint_dot 1 = 0%Z
  /\ sin (IZR 1 * 0.2 + phase faint_dot) <> -1.
Proof.
  pose proof cos_02_bounds as [Hlo Hhi].
  split; [reflexivity | split].
  - apply get_size_zero_low; [reflexivity |].
    rewrite pulse_faint_dot_1. lra.
  - fold (pulse_of faint_dot 1). rewrite pulse_faint_dot_1. lra.
Qed.

(** C6, amended.  For every dot and frame number [get_size] lies in
    [[0, 2 * MAX_DOT_SIZE]].  A static-bright dot returns exactly
    [2 * MAX_DOT_SIZE] whatever the frame number and the phase.  A dot
    that is not static-bright returns a value of [[0, MAX_DOT_SIZE]]; it
    returns 0 when the sinusoid is -1, and also for other values of the
    sinusoid, every value up to -4/5 among them; it returns
    [MAX_DOT_SIZE] when the sinusoid is 1. *)
Theorem get_size_range_and_extremes (d : Dot) (frame_num : Z) :
  let s := sin (IZR frame_num * 0.2 + phase d) in
  (0 <= get_size d frame_num <= 2 * MAX_DOT_SIZE)%Z
  /\ (is_static_bright d = true ->
      get_size d frame_num = (2 * MAX_DOT_SIZE)%Z)
  /\ (is_static_bright d = false ->
      (0 <= get_size d frame_num <= MAX_DOT_SIZE)%Z
      /\ (s = -1 -> get_size d frame_num = 0%Z)
      /\ (s <= - 4 / 5 -> get_size d frame_num = 0%Z)
      /\ (s = 1 -> get_size d frame_num = MAX_DOT_SIZE)).
Proof.
  intros s. fold (pulse_of d frame_num) in s.
  assert (Hp : is_static_bright d = false ->
               (0 <= get_size d frame_num <= MAX_DOT_SIZE)%Z).
  { intros Hs. rewrite (get_size_pulsating_eq d frame_num Hs).
    apply py_int_range; [lia |]. apply scaled_pulse_range. }
  split; [| split].
  - destruct (is_static_bright d) eqn:Hs.
    + rewrite (get_size_static_bright d frame_num Hs).
      unfold MAX_DOT_SIZE. lia.
    + specialize (Hp eq_refl). unfold MAX_DOT_SIZE in *. lia.
  - apply get_size_static_bright.
  - intros Hs. split; [exact (Hp Hs) | split; [| split]].
    + intros E. apply (get_size_zero_low d frame_num Hs).
      unfold s in E. rewrite E. lra.
    + apply get_size_zero_low; exact Hs.
    + apply get_size_max_at_one; exact Hs.
Qed.

Lemma get_size_range_and_extremes_witness :
  is_static_bright bright_dot = true
  /\ get_size bright_dot 42 = 10%Z
  /\ is_static_bright faint_dot = false
  /\ get_size faint_dot 0 = 0%Z.
Proof.
  split; [reflexivity | split; [| split; [reflexivity |]]].
  - exact (proj1 (proj2
             (get_size_range_and_extremes bright_dot 42)) eq_refl).
  - apply (proj1 (proj2 (proj2 (proj2
             (get_size_range_and_extremes faint_dot 0)) eq_refl))).
    exact pulse_faint_dot_0.
Defined.

(** ** Lists of dots *)

Lemma filter_length_all {A : Type} (f : A -> bool) (l : list A) :
  Forall (fun a => f a = true) l -> List.length (filter f l) = List.length l.
Proof.
  induction 1 as [| a l Ha _ IH]; simpl; [reflexivity |].
  rewrite Ha. simpl. now rewrite IH.
Qed.

Lemma filter_length_none {A : Type} (f : A -> bool) (l : list A) :
  Forall (fun a => f a = false) l -> List.length (filter f l) = 0%nat.
Proof.
  induction 1 as [| a l Ha _ IH]; simpl; [reflexivity |].
  now rewrite Ha.
Qed.

Lemma py_sum_ones {A : Type} (l : list A) :
  py_sum (map (fun _ => 1%Z) l) = Z.of_nat (List.length l).
Proof.
  unfold py_sum.
  assert (H : forall a, fold_left Z.add (map (fun _ : A => 1%Z) l) a
                        = (a + Z.of_nat (List.length l))%Z).
  { induction l as [| b l IH]; intros a; simpl List.length; simpl map;
      simpl fold_left.
    - lia.
    - rewrite IH. lia. }
  rewrite H. lia.
Qed.

(** How many dots of a three-block list pass a test that is constant on
    each block. *)
Lemma count_three_blocks (f : Dot -> bool) (b1 b2 b3 : bool)
    (l1 l2 l3 : list Dot) :
  Forall (fun d => f d = b1) l1 ->
  Forall (fun d => f d = b2) l2 ->
  Forall (fun d => f d = b3) l3 ->
  List.length (filter f (l1 ++ l2 ++ l3))
  = ((if b1 then List.length l1 else 0)
     + (if b2 then List.length l2 else 0)
     + (if b3 then List.length l3 else 0))%nat.
Proof.
  intros F1 F2 F3. rewrite !filter_app, !length_app.
  destruct b1, b2, b3;
    repeat match goal with
           | H : Forall (fun d => f d = true) ?l |- _ =>
               rewrite (filter_length_all f l H); clear H
           | H : Forall (fun d => f d = false) ?l |- _ =>
               rewrite (filter_length_none f l H); clear H
           end; lia.
Qed.

Lemma created_is_moving (m sb : bool) (d : Dot) :
  created_as m sb d -> is_moving d = m.
Proof. unfold created_as. tauto. Qed.

Lemma created_is_static_bright (m sb : bool) (d : Dot) :
  created_as m sb d -> is_static_bright d = sb.
Proof. unfold created_as. tauto. Qed.

Lemma created_is_true_event (m sb : bool) (d : Dot) :
  created_as m sb d -> is_true_event d = negb m && negb sb.
Proof.
  unfold created_as, is_true_event. intros (H1 & H2 & _).
  now rewrite H1, H2.
Qed.

Lemma map_constant {A B : Type} (f : A -> B) (c : B) (l : list A) :
  Forall (fun a => f a = c) l -> map f l = repeat c (List.length l).
Proof.
  induction 1 as [| a l Ha _ IH]; simpl; [reflexivity |].
  now rewrite Ha, IH.
Qed.

Lemma map_three_blocks {B : Type} (f : Dot -> B) (c1 c2 c3 : B)
    (l1 l2 l3 : list Dot) :
  Forall (fun d => f d = c1) l1 ->
  Forall (fun d => f d = c2) l2 ->
  Forall (fun d => f d = c3) l3 ->
  map f (l1 ++ l2 ++ l3)
  = repeat c1 (List.length l1) ++ repeat c2 (List.length l2)
    ++ repeat c3 (List.length l3).
Proof.
  intros F1 F2 F3. rewrite !map_app.
  now rewrite (map_constant f c1 l1 F1), (map_constant f c2 l2 F2),
    (map_constant f c3 l3 F3).
Qed.

Lemma created_category (d : Dot) :
  (created_as true false d -> category_of d = Some Moving)
  /\ (created_as false true d -> category_of d = Some StaticBright)
  /\ (created_as false false d -> category_of d = Some StationaryPulsating).
Proof.
  unfold created_as, category_of.
  repeat split; intros (H1 & H2 & _); now rewrite H1, H2.
Qed.

(** The flags of the record of a dot that has a category are those of the
    category. *)
Lemma record_flags_category (d : Dot) (c : Category) :
  category_of d = Some c -> record_flags (to_dict d) = flags_of_category c.
Proof.
  unfold category_of, record_flags, to_dict, is_true_event. simpl.
  destruct (is_moving d), (is_static_bright d); intros H;
    inversion H; subst; reflexivity.
Qed.

Lemma np_zeros_all_zero (h w c : Z) :
  all_zero (Z.to_nat h) (Z.to_nat w) (Z.to_nat c) (np_zeros h w c).
Proof.
  unfold all_zero, np_zeros. split.
  - apply repeat_length.
  - apply Forall_forall. intros row Hrow.
    apply repeat_spec in Hrow. subst row. split.
    + apply repeat_length.
    + apply Forall_forall. intros px Hpx.
      now apply repeat_spec in Hpx.
Qed.

Lemma py_range_nth (n : Z) (i : nat) :
  nth_error (py_range n) i
  = if (i <? Z.to_nat n)%nat then Some (Z.of_nat i) else None.
Proof.
  unfold py_range. rewrite nth_error_map.
  destruct (i <? Z.to_nat n)%nat eqn:E.
  - apply Nat.ltb_lt in E.
    rewrite (nth_error_nth' _ 0%nat) by (now rewrite length_seq).
    rewrite seq_nth by exact E. reflexivity.
  - apply Nat.ltb_ge in E.
    replace (nth_error (seq 0 (Z.to_nat n)) i) with (@None nat);
      [reflexivity |].
    symmetry. apply nth_error_None. now rewrite length_seq.
Qed.

(** * Properties of the program with its collaborators *)

Section ProgramProperties.

Context `{Ext : External}.

(** ** [create_dots] *)

Lemma Dot_init_created (x0 y0 : R) (m sb : bool) (s : Rng) :
  created_as m sb (fst (Dot_init x0 y0 m sb s))
  /\ x (fst (Dot_init x0 y0 m sb s)) = x0
  /\ y (fst (Dot_init x0 y0 m sb s)) = y0.
Proof.
  unfold Dot_init, bind, ret, created_as.
  destruct (uniform 0 (2 * PI) s) as [ph s1].
  destruct m.
  - destruct (uniform (- IZR MOVE_SPEED) (IZR MOVE_SPEED) s1) as [vx s2].
    destruct (uniform (- IZR MOVE_SPEED) (IZR MOVE_SPEED) s2) as [vy s3].
    simpl. tauto.
  - simpl. tauto.
Qed.

Lemma new_moving_dot_created (s : Rng) :
  created_as true false (fst (new_moving_dot s)).
Proof.
  unfold new_moving_dot, bind.
  destruct (randint 50 (WIDTH - 50) s) as [x0 s1].
  destruct (randint 50 (HEIGHT - 50) s1) as [y0 s2].
  apply Dot_init_created.
Qed.

Lemma new_static_bright_dot_created (s : Rng) :
  created_as false true (fst (new_static_bright_dot s)).
Proof.
  unfold new_static_bright_dot, bind.
  destruct (randint 0 WIDTH s) as [x0 s1].
  destruct (randint 0 HEIGHT s1) as [y0 s2].
  apply Dot_init_created.
Qed.

Lemma new_pulsating_dot_created (s : Rng) :
  created_as false false (fst (new_pulsating_dot s)).
Proof.
  unfold new_pulsating_dot, bind.
  destruct (randint 0 WIDTH s) as [x0 s1].
  destruct (randint 0 HEIGHT s1) as [y0 s2].
  apply Dot_init_created.
Qed.

(** A loop of [n] appends leaves the list it was given in front and adds
    [n] dots, each as its body makes them. *)
Lemma append_loop_spec (P : Dot -> Prop) (mk : M Dot) :
  (forall s, P (fst (mk s))) ->
  forall (n : nat) (dots : list Dot) (s : Rng),
  exists new,
    fst (append_loop n mk dots s) = dots ++ new
    /\ List.length new = n /\ Forall P new.
Proof.
  intros HP. induction n as [| k IH]; intros dots s.
  - exists []. simpl. unfold ret. simpl. rewrite app_nil_r. auto.
  - simpl. unfold bind. pose proof (HP s) as Hd.
    destruct (mk s) as [d s1]. simpl in Hd.
    destruct (IH (dots ++ [d]) s1) as (new & E & Hl & Hf).
    exists (d :: new). rewrite E, <- app_assoc. simpl.
    repeat split; auto.
Qed.

(** The list [create_dots] returns is three consecutive blocks. *)
Lemma create_dots_with_blocks (num_dots : Z) (p q : R) (s : Rng) :
  exists l1 l2 l3,
    fst (create_dots_with num_dots p q s) = l1 ++ l2 ++ l3
    /\ List.length l1 = Z.to_nat (num_moving_of num_dots p)
    /\ List.length l2 = Z.to_nat (num_static_bright_of num_dots q)
    /\ List.length l3 = Z.to_nat (num_pulsating_of num_dots p q)
    /\ Forall (created_as true false) l1
    /\ Forall (created_as false true) l2
    /\ Forall (created_as false false) l3.
Proof.
  unfold create_dots_with, bind.
  destruct (append_loop_spec _ _ new_moving_dot_created
              (Z.to_nat (num_moving_of num_dots p)) [] s)
    as (l1 & E1 & L1 & F1).
  destruct (append_loop _ new_moving_dot [] s) as [d1 s1].
  simpl in E1. subst d1.
  destruct (append_loop_spec _ _ new_static_bright_dot_created
              (Z.to_nat (num_static_bright_of num_dots q)) l1 s1)
    as (l2 & E2 & L2 & F2).
  destruct (append_loop _ new_static_bright_dot l1 s1) as [d2 s2].
  simpl in E2. subst d2.
  destruct (append_loop_spec _ _ new_pulsating_dot_created
              (Z.to_nat (num_pulsating_of num_dots p q)) (l1 ++ l2) s2)
    as (l3 & E3 & L3 & F3).
  destruct (append_loop _ new_pulsating_dot (l1 ++ l2) s2) as [d3 s3].
  simpl in E3. subst d3.
  exists l1, l2, l3. unfold ret. simpl. rewrite <- app_assoc. auto 10.
Qed.

(** The counts for the module constants. *)
Lemma num_moving_20 : num_moving_of NUM_DOTS MOVING_PERCENTAGE = 20%Z.
Proof.
  unfold num_moving_of, NUM_DOTS, MOVING_PERCENTAGE.
  replace (200 * 0.1) with (IZR 20) by lra. apply py_int_IZR.
Qed.

Lemma num_static_bright_10 :
  num_static_bright_of NUM_DOTS STATIC_BRIGHT_PERCENTAGE = 10%Z.
Proof.
  unfold num_static_bright_of, NUM_DOTS, STATIC_BRIGHT_PERCENTAGE.
  replace (200 * 0.05) with (IZR 10) by lra. apply py_int_IZR.
Qed.

Lemma num_pulsating_170 :
  num_pulsating_of NUM_DOTS MOVING_PERCENTAGE STATIC_BRIGHT_PERCENTAGE
  = 170%Z.
Proof.
  unfold num_pulsating_of. rewrite num_moving_20, num_static_bright_10.
  reflexivity.
Qed.

Lemma create_dots_blocks (s : Rng) :
  exists l1 l2 l3,
    fst (create_dots s) = l1 ++ l2 ++ l3
    /\ List.length l1 = 20%nat /\ List.length l2 = 10%nat
    /\ List.length l3 = 170%nat
    /\ Forall (created_as true false) l1
    /\ Forall (created_as false true) l2
    /\ Forall (created_as false false) l3.
Proof.
  destruct (create_dots_with_blocks NUM_DOTS MOVING_PERCENTAGE
              STATIC_BRIGHT_PERCENTAGE s)
    as (l1 & l2 & l3 & E & L1 & L2 & L3 & F).
  rewrite num_moving_20 in L1. rewrite num_static_bright_10 in L2.
  rewrite num_pulsating_170 in L3.
  exists l1, l2, l3. unfold create_dots. rewrite E, L1, L2, L3.
  repeat split; try reflexivity; tauto.
Qed.

(** *** Counting *)

(** C3.  The three counts [create_dots] computes add up to the total for
    any values of the constants.  For the constants of the module they are
    the floors of the products, namely 20 and 10, and the remainder 170;
    the list returned holds 200 dots, 20 of them moving, 10 static-bright
    and 170 neither, and the summary of [save_dot_list] reports 170 true
    events and 30 false events. *)
Theorem create_dots_counts (rng : Rng) :
  let dots := fst (create_dots rng) in
  let summary := snd (save_dot_list dots) in
  (forall (num_dots : Z) (p q : R),
      (num_moving_of num_dots p + num_static_bright_of num_dots q
       + num_pulsating_of num_dots p q = num_dots)%Z)
  /\ num_moving_of NUM_DOTS MOVING_PERCENTAGE
     = Int_part (IZR NUM_DOTS * MOVING_PERCENTAGE)
  /\ num_static_bright_of NUM_DOTS STATIC_BRIGHT_PERCENTAGE
     = Int_part (IZR NUM_DOTS * STATIC_BRIGHT_PERCENTAGE)
  /\ num_moving_of NUM_DOTS MOVING_PERCENTAGE = 20%Z
  /\ num_static_bright_of NUM_DOTS STATIC_BRIGHT_PERCENTAGE = 10%Z
  /\ num_pulsating_of NUM_DOTS MOVING_PERCENTAGE STATIC_BRIGHT_PERCENTAGE
     = 170%Z
  /\ List.length dots = 200%nat
  /\ List.length (filter is_moving dots) = 20%nat
  /\ List.length (filter is_static_bright dots) = 10%nat
  /\ List.length (filter is_true_event dots) = 170%nat
  /\ true_events summary = 170%Z
  /\ false_events summary = 30%Z
  /\ total_dots summary = 200%Z
  /\ out_summary (fst (main rng)) = summary.
Proof.
  intros dots summary.
  assert (Hmain : out_summary (fst (main rng)) = summary).
  { unfold summary, dots, main, bind.
    destruct (create_dots rng) as [ds s1]. cbn [fst].
    destruct (save_dot_list ds) as [dl sm].
    destruct (frame_loop ds FRAMES) as [fr ds1]. reflexivity. }
  assert (Hsum : summary
                 = mkSummary
                     (py_sum (map (fun _ => 1%Z) (filter is_true_event dots)))
                     (py_len dots
                      - py_sum (map (fun _ => 1%Z)
                                  (filter is_true_event dots)))%Z
                     (py_len dots)) by reflexivity.
  destruct (create_dots_blocks rng)
    as (l1 & l2 & l3 & E & L1 & L2 & L3 & F1 & F2 & F3).
  fold dots in E. clearbody summary. clearbody dots. subst dots.
  assert (Hlen : List.length (l1 ++ l2 ++ l3) = 200%nat)
    by (rewrite !length_app, L1, L2, L3; reflexivity).
  assert (Hte : List.length (filter is_true_event (l1 ++ l2 ++ l3))
                = 170%nat).
  { rewrite (count_three_blocks is_true_event false false true).
    - rewrite L3. reflexivity.
    - eapply Forall_impl; [| exact F1]. apply created_is_true_event.
    - eapply Forall_impl; [| exact F2]. apply created_is_true_event.
    - eapply Forall_impl; [| exact F3]. apply created_is_true_event. }
  rewrite py_sum_ones, Hte in Hsum. unfold py_len in Hsum.
  rewrite Hlen in Hsum.
  split; [| split; [| split; [| split; [| split; [| split; [| split;
    [| split; [| split; [| split; [| split; [| split; [| split]]]]]]]]]]]].
  - intros num_dots p q. unfold num_pulsating_of. lia.
  - unfold num_moving_of. apply py_int_floor.
    unfold NUM_DOTS, MOVING_PERCENTAGE. lra.
  - unfold num_static_bright_of. apply py_int_floor.
    unfold NUM_DOTS, STATIC_BRIGHT_PERCENTAGE. lra.
  - exact num_moving_20.
  - exact num_static_bright_10.
  - exact num_pulsating_170.
  - exact Hlen.
  - rewrite (count_three_blocks is_moving true false false).
    + rewrite L1. reflexivity.
    + eapply Forall_impl; [| exact F1]. apply created_is_moving.
    + eapply Forall_impl; [| exact F2]. apply created_is_moving.
    + eapply Forall_impl; [| exact F3]. apply created_is_moving.
  - rewrite (count_three_blocks is_static_bright false true false).
    + rewrite L2. reflexivity.
    + eapply Forall_impl; [| exact F1]. apply created_is_static_bright.
    + eapply Forall_impl; [| exact F2]. apply created_is_static_bright.
    + eapply Forall_impl; [| exact F3]. apply created_is_static_bright.
  - exact Hte.
  - rewrite Hsum. reflexivity.
  - rewrite Hsum. reflexivity.
  - rewrite Hsum. reflexivity.
  - exact Hmain.
Qed.

(** *** Order *)

(** The categories along the list [create_dots_with] returns. *)
Lemma create_dots_with_order (num_dots : Z) (p q : R) (s : Rng) :
  map category_of (fst (create_dots_with num_dots p q s))
  = repeat (Some Moving) (Z.to_nat (num_moving_of num_dots p))
    ++ repeat (Some StaticBright)
         (Z.to_nat (num_static_bright_of num_dots q))
    ++ repeat (Some StationaryPulsating)
         (Z.to_nat (num_pulsating_of num_dots p q)).
Proof.
  destruct (create_dots_with_blocks num_dots p q s)
    as (l1 & l2 & l3 & E & L1 & L2 & L3 & F1 & F2 & F3).
  rewrite E, <- L1, <- L2, <- L3.
  apply map_three_blocks.
  - eapply Forall_impl; [| exact F1]. intros d. apply created_category.
  - eapply Forall_impl; [| exact F2]. intros d. apply created_category.
  - eapply Forall_impl; [| exact F3]. intros d. apply created_category.
Qed.

(** C10.  The list [create_dots] returns is grouped by category in a
    fixed order: the first [num_moving] dots are moving, the next
    [num_static_bright] are static-bright, the remaining [num_pulsating]
    are stationary and pulsating; with the constants of the module the
    blocks have 20, 10 and 170 dots.  The records of the manifest follow
    the same order. *)
Theorem create_dots_block_order (rng : Rng) :
  let dots := fst (create_dots rng) in
  map category_of dots
  = repeat (Some Moving) (Z.to_nat (num_moving_of NUM_DOTS MOVING_PERCENTAGE))
    ++ repeat (Some StaticBright)
         (Z.to_nat (num_static_bright_of NUM_DOTS STATIC_BRIGHT_PERCENTAGE))
    ++ repeat (Some StationaryPulsating)
         (Z.to_nat (num_pulsating_of NUM_DOTS MOVING_PERCENTAGE
                      STATIC_BRIGHT_PERCENTAGE))
  /\ map category_of dots
     = repeat (Some Moving) 20 ++ repeat (Some StaticBright) 10
       ++ repeat (Some StationaryPulsating) 170
  /\ map record_flags (fst (save_dot_list dots))
     = repeat (flags_of_category Moving) 20
       ++ repeat (flags_of_category StaticBright) 10
       ++ repeat (flags_of_category StationaryPulsating) 170
  /\ out_dot_list (fst (main rng)) = fst (save_dot_list dots).
Proof.
  intros dots.
  assert (Hmain : out_dot_list (fst (main rng)) = fst (save_dot_list dots)).
  { unfold dots, main, bind.
    destruct (create_dots rng) as [ds s1]. cbn [fst].
    destruct (save_dot_list ds) as [dl sm].
    destruct (frame_loop ds FRAMES) as [fr ds1]. reflexivity. }
  assert (Hord := create_dots_with_order NUM_DOTS MOVING_PERCENTAGE
                    STATIC_BRIGHT_PERCENTAGE rng).
  fold create_dots in Hord. fold dots in Hord.
  destruct (create_dots_blocks rng)
    as (l1 & l2 & l3 & E & L1 & L2 & L3 & F1 & F2 & F3).
  fold dots in E. clearbody dots.
  split; [exact Hord | split; [| split; [| exact Hmain]]].
  - rewrite Hord, num_moving_20, num_static_bright_10, num_pulsating_170.
    reflexivity.
  - unfold save_dot_list. cbn [fst]. rewrite map_map. subst dots.
    rewrite <- L3, <- L1, <- L2. apply map_three_blocks.
    + eapply Forall_impl; [| exact F1]. intros d H.
      apply record_flags_category. now apply created_category.
    + eapply Forall_impl; [| exact F2]. intros d H.
      apply record_flags_category. now apply created_category.
    + eapply Forall_impl; [| exact F3]. intros d H.
      apply record_flags_category. now apply created_category.
Qed.

(** ** The manifest *)

(** Every dot [create_dots] returns has a category, and its initial
    position is the position it was created at. *)
Lemma create_dots_well_formed (rng : Rng) :
  Forall (fun d => category_of d <> None
                   /\ initial_x d = x d /\ initial_y d = y d)
         (fst (create_dots rng)).
Proof.
  destruct (create_dots_blocks rng)
    as (l1 & l2 & l3 & E & _ & _ & _ & F1 & F2 & F3).
  rewrite E. rewrite !Forall_app. repeat split.
  - eapply Forall_impl; [| exact F1]. intros d H.
    rewrite (proj1 (created_category d) H).
    unfold created_as in H. repeat split; try tauto. discriminate.
  - eapply Forall_impl; [| exact F2]. intros d H.
    rewrite (proj1 (proj2 (created_category d)) H).
    unfold created_as in H. repeat split; try tauto. discriminate.
  - eapply Forall_impl; [| exact F3]. intros d H.
    rewrite (proj2 (proj2 (created_category d)) H).
    unfold created_as in H. repeat split; try tauto. discriminate.
Qed.

(** C5.  The manifest holds one record per dot, in the order of the list
    it is given, which in [main] is the list [create_dots] returned.  The
    record of a dot has the six keys of [to_dict]: the initial position
    on both axes, [is_true_event], [is_moving], [is_static_bright], and
    [is_pulsating], which is true exactly when the dot is not
    static-bright.  The four booleans are those of the dot's category;
    when [is_true_event] is true, [is_pulsating] is true and [is_moving]
    and [is_static_bright] are false. *)
Theorem manifest_one_record_per_dot (dots : list Dot) :
  let dot_list := fst (save_dot_list dots) in
  List.length dot_list = List.length dots
  /\ (forall i : nat,
        nth_error dot_list i = option_map to_dict (nth_error dots i))
  /\ (forall d : Dot,
        let r := to_dict d in
        map fst r
        = [ "initial_x"; "initial_y"; "is_true_event"; "is_moving";
            "is_static_bright"; "is_pulsating" ]%string
        /\ dict_get "initial_x" r = Some (JNumber (initial_x d))
        /\ dict_get "initial_y" r = Some (JNumber (initial_y d))
        /\ dict_get "is_true_event" r = Some (JBool (is_true_event d))
        /\ dict_get "is_moving" r = Some (JBool (is_moving d))
        /\ dict_get "is_static_bright" r
           = Some (JBool (is_static_bright d))
        /\ dict_get "is_pulsating" r
           = Some (JBool (negb (is_static_bright d)))
        /\ (forall c : Category,
              category_of d = Some c ->
              (negb (is_static_bright d) = true <-> c <> StaticBright))
        /\ (forall c : Category,
              category_of d = Some c ->
              record_flags r = flags_of_category c)
        /\ (dict_get "is_true_event" r = Some (JBool true) ->
            dict_get "is_pulsating" r = Some (JBool true)
            /\ dict_get "is_moving" r = Some (JBool false)
            /\ dict_get "is_static_bright" r = Some (JBool false)))
  /\ (forall rng : Rng,
        out_dot_list (fst (main rng))
        = map to_dict (fst (create_dots rng))
        /\ Forall (fun d => category_of d <> None
                            /\ initial_x d = x d /\ initial_y d = y d)
                  (fst (create_dots rng))).
Proof.
  intros dot_list.
  split; [| split; [| split]].
  - unfold dot_list, save_dot_list. cbn [fst]. apply length_map.
  - intros i. unfold dot_list, save_dot_list. cbn [fst].
    apply nth_error_map.
  - intros d r. unfold r.
    split; [reflexivity |]. split; [reflexivity |].
    split; [reflexivity |]. split; [reflexivity |].
    split; [reflexivity |]. split; [reflexivity |].
    split; [reflexivity |]. split; [| split].
    + intros c. unfold category_of.
      destruct (is_moving d), (is_static_bright d); simpl;
        intros Hc; split; intros; congruence.
    + intros c Hc. apply (record_flags_category d c Hc).
    + intros H. cbn in H. unfold to_dict, is_true_event in *. cbn.
      destruct (is_moving d), (is_static_bright d); cbn in *;
        repeat split; congruence.
  - intros rng. split.
    + unfold main, bind.
      destruct (create_dots rng) as [ds s1]. cbn [fst].
      destruct (save_dot_list ds) as [dl sm] eqn:Es.
      destruct (frame_loop ds FRAMES) as [fr ds1]. cbn [fst ret out_dot_list].
      unfold save_dot_list in Es. inversion Es. reflexivity.
    + apply create_dots_well_formed.
Qed.

(** ** [draw_frame] *)

(** The loop of [draw_frame] from any buffer: the dots are all updated,
    and the circles drawn are those of the updated dots whose size is
    positive, in order. *)
Lemma draw_loop_from (frame_num : Z) (dots : list Dot) :
  forall (frame : Frame) (acc : list Dot),
    fold_left (draw_dot frame_num) dots (frame, acc)
    = (fold_left (paint frame_num)
         (filter (visible frame_num)
            (map (fun d => update d frame_num) dots)) frame,
       acc ++ map (fun d => update d frame_num) dots).
Proof.
  induction dots as [| d dots IH]; intros frame acc.
  - simpl. now rewrite app_nil_r.
  - cbn [fold_left map filter]. unfold draw_dot at 2. cbn [fst snd].
    rewrite IH. unfold visible at 2.
    destruct (get_size (update d frame_num) frame_num >? 0)%Z.
    + cbn [fold_left]. unfold paint at 3.
      rewrite <- app_assoc. reflexivity.
    + rewrite <- app_assoc. reflexivity.
Qed.

Lemma draw_frame_eq (dots : list Dot) (frame_num : Z) :
  draw_frame dots frame_num
  = (cv2_GaussianBlur
       (fold_left (paint frame_num)
          (filter (visible frame_num)
             (map (fun d => update d frame_num) dots))
          (np_zeros HEIGHT WIDTH 3))
       (BLUR_KERNEL_SIZE, BLUR_KERNEL_SIZE) BLUR_SIGMA,
     map (fun d => update d frame_num) dots).
Proof.
  unfold draw_frame, draw_loop. rewrite draw_loop_from. reflexivity.
Qed.

(** C7.  [draw_frame] builds its frame on [np.zeros((HEIGHT, WIDTH, 3))],
    a buffer of 512 rows of 512 pixels of 3 channels, all zero, whatever
    was rendered before.  The circles drawn on it are those of the updated
    dots whose size is positive: visiting a dot whose size is 0 leaves the
    buffer as it was, and a frame with such a dot is the frame without
    it. *)
Theorem draw_frame_fresh_buffer_skips_invisible (dots : list Dot)
    (frame_num : Z) :
  let blank := np_zeros HEIGHT WIDTH 3 in
  let moved := map (fun d => update d frame_num) dots in
  all_zero 512 512 3 blank
  /\ draw_loop [] frame_num = (blank, [])
  /\ draw_frame dots frame_num
     = (cv2_GaussianBlur
          (fold_left (paint frame_num)
             (filter (visible frame_num) moved) blank)
          (BLUR_KERNEL_SIZE, BLUR_KERNEL_SIZE) BLUR_SIGMA,
        moved)
  /\ (forall (st : Frame * list Dot) (d : Dot),
        get_size (update d frame_num) frame_num = 0%Z ->
        fst (draw_dot frame_num st d) = fst st)
  /\ (forall (st : Frame * list Dot) (d : Dot),
        (get_size (update d frame_num) frame_num > 0)%Z ->
        fst (draw_dot frame_num st d)
        = paint frame_num (fst st) (update d frame_num))
  /\ (forall (before after : list Dot) (d : Dot),
        get_size (update d frame_num) frame_num = 0%Z ->
        fst (draw_frame (before ++ d :: after) frame_num)
        = fst (draw_frame (before ++ after) frame_num)).
Proof.
  intros blank moved.
  split; [| split; [| split; [| split; [| split]]]].
  - exact (np_zeros_all_zero HEIGHT WIDTH 3).
  - reflexivity.
  - apply draw_frame_eq.
  - intros st d H. unfold draw_dot. cbn [fst]. now rewrite H.
  - intros st d H. unfold draw_dot. cbn [fst].
    apply Z.gtb_gt in H. now rewrite H.
  - intros before after d H. rewrite !draw_frame_eq. cbn [fst].
    rewrite !map_app, !filter_app. cbn [map filter].
    unfold visible at 2. now rewrite H.
Qed.

(** ** The frame loop of [main] *)

Lemma dots_after_advance (dots : list Dot) (k : nat) :
  dots_after dots k = map (advance_times k) dots.
Proof.
  induction k as [| j IH].
  - simpl. symmetry. apply map_id.
  - cbn [dots_after advance_times]. rewrite draw_frame_eq. cbn [snd].
    rewrite IH, map_map. reflexivity.
Qed.

(** The loop over the frame numbers [a .. a+n-1], entered with the dots
    as [a] render calls leave them. *)
Lemma frame_loop_from (dots : list Dot) (n : nat) :
  forall (a : nat) (frames : list Frame),
    fold_left main_step (map Z.of_nat (seq a n))
      (frames, dots_after dots a)
    = (frames
       ++ map (fun k => fst (draw_frame (dots_after dots k) (Z.of_nat k)))
            (seq a n),
       dots_after dots (a + n)).
Proof.
  induction n as [| n IH]; intros a frames.
  - cbn [seq map fold_left]. now rewrite app_nil_r, Nat.add_0_r.
  - cbn [seq map fold_left]. unfold main_step at 2. cbn [fst snd].
    destruct (draw_frame (dots_after dots a) (Z.of_nat a))
      as [frame dots1] eqn:E.
    assert (E1 : dots1 = dots_after dots (S a))
      by (cbn [dots_after]; now rewrite E).
    rewrite E1, IH, <- app_assoc. cbn [fst app].
    now rewrite Nat.add_succ_r.
Qed.

Lemma frame_loop_eq (dots : list Dot) (frames : Z) :
  frame_loop dots frames
  = (map (fun k => fst (draw_frame (dots_after dots k) (Z.of_nat k)))
       (seq 0 (Z.to_nat frames)),
     dots_after dots (Z.to_nat frames)).
Proof.
  unfold frame_loop, py_range.
  change dots with (dots_after dots 0) at 1.
  rewrite frame_loop_from. reflexivity.
Qed.

(** C9.  [main] loops over the frame numbers 0, 1, ..., [FRAMES - 1] in
    this order; the frames it collects are, in the same order, the frames
    [draw_frame] returns for these numbers, one call per number, each call
    on the dots as the calls before it left them.  After [k] calls every
    dot has been updated [k] times and by nothing else: the loop starts
    from the dots [create_dots] returned, and ends with each of them
    updated [FRAMES] times. *)
Theorem main_renders_each_frame_once (rng : Rng) :
  let dots := fst (create_dots rng) in
  let out := fst (main rng) in
  (forall i : nat,
      nth_error (py_range FRAMES) i
      = if (i <? 500)%nat then Some (Z.of_nat i) else None)
  /\ out_frames out
     = map (fun k => fst (draw_frame (dots_after dots k) (Z.of_nat k)))
         (seq 0 500)
  /\ List.length (out_frames out) = 500%nat
  /\ (forall i : nat,
        nth_error (out_frames out) i
        = if (i <? 500)%nat
          then Some (fst (draw_frame (dots_after dots i) (Z.of_nat i)))
          else None)
  /\ (forall k : nat, dots_after dots k = map (advance_times k) dots)
  /\ out_dots out = map (advance_times 500) dots.
Proof.
  intros dots out.
  assert (Hout : out_frames out
                 = map (fun k => fst (draw_frame (dots_after dots k)
                                        (Z.of_nat k))) (seq 0 500)
                 /\ out_dots out = dots_after dots 500).
  { unfold out, dots, main, bind.
    destruct (create_dots rng) as [ds s1]. cbn [fst].
    destruct (save_dot_list ds) as [dl sm].
    rewrite frame_loop_eq. cbn [ret fst out_frames out_dots].
    split; reflexivity. }
  destruct Hout as [Hf Hd]. clearbody out. clearbody dots.
  split; [| split; [| split; [| split; [| split]]]].
  - intros i. apply (py_range_nth FRAMES i).
  - exact Hf.
  - rewrite Hf, length_map, length_seq. reflexivity.
  - intros i. rewrite Hf, nth_error_map.
    destruct (i <? 500)%nat eqn:E.
    + apply Nat.ltb_lt in E.
      rewrite (nth_error_nth' _ 0%nat) by (now rewrite length_seq).
      rewrite seq_nth by exact E. reflexivity.
    + apply Nat.ltb_ge in E.
      replace (nth_error (seq 0 500) i) with (@None nat);
        [reflexivity |].
      symmetry. apply nth_error_None. now rewrite length_seq.
  - intros k. apply dots_after_advance.
  - rewrite Hd. apply dots_after_advance.
Qed.

End ProgramProperties.

(** ** The rendering model on stand-in collaborators *)

(** With a [circle] that records its calls, visiting [faint_dot] at frame
    0, where its size is 0, leaves the buffer untouched. *)
Lemma draw_frame_fresh_buffer_skips_invisible_witness :
  get_size (update faint_dot 0) 0 = 0%Z
  /\ fst (@draw_dot demo 0 ([], []) faint_dot) = [].
Proof.
  assert (H : get_size (update faint_dot 0) 0 = 0%Z).
  { apply get_size_zero_low; [reflexivity |].
    change (update faint_dot 0) with faint_dot.
    rewrite pulse_faint_dot_0. lra. }
  split; [exact H |].
  exact (proj1 (proj2 (proj2 (proj2
           (@draw_frame_fresh_buffer_skips_invisible demo [] 0))))
         ([], []) faint_dot H).
Defined.

(** The same [circle] does record a call for [bright_dot], whose size is
    10 at every frame. *)
Example draw_dot_bright :
  fst (@draw_dot demo 0 ([], []) bright_dot) = [[[511; 1; 10]]]%Z.
Proof.
  unfold draw_dot. cbn [fst snd].
  change (update bright_dot 0) with bright_dot.
  rewrite (get_size_static_bright bright_dot 0 eq_refl).
  cbn [Z.gtb Z.mul MAX_DOT_SIZE Z.compare Pos.mul].
  cbn [cv2_circle demo]. unfold demo_circle.
  cbn [fst snd app x y bright_dot].
  rewrite !py_int_IZR. reflexivity.
Qed.

(** * Further properties of [Dot] *)

(** ** [Dot.update] along a run *)

(** The fields of a moving dot after [update]. *)
Lemma update_moving_fields (d : Dot) (frame_num : Z) :
  is_moving d = true ->
  x (update d frame_num) = py_max 0 (py_min (IZR WIDTH) (x d + dx d))
  /\ y (update d frame_num) = py_max 0 (py_min (IZR HEIGHT) (y d + dy d))
  /\ (hits (x d + dx d) WIDTH -> dx (update d frame_num) = - dx d)
  /\ (~ hits (x d + dx d) WIDTH -> dx (update d frame_num) = dx d)
  /\ (hits (y d + dy d) HEIGHT -> dy (update d frame_num) = - dy d)
  /\ (~ hits (y d + dy d) HEIGHT -> dy (update d frame_num) = dy d).
Proof.
  intros Hm. rewrite (update_moving d frame_num Hm).
  destruct (bounce_x_fields (advanced d)) as (Hx & Hdx1 & Hdx2 & Hy & Hdy).
  destruct (bounce_y_fields (bounce_x (advanced d)))
    as (Hy' & Hdy1 & Hdy2 & Hx' & Hdx').
  rewrite Hy in Hy', Hdy1, Hdy2. rewrite Hdy in Hdy1, Hdy2.
  rewrite Hx in Hx'. rewrite Hdx'.
  simpl in Hx', Hy', Hdx1, Hdx2, Hdy1, Hdy2.
  repeat split; assumption.
Qed.

Lemma update_in_frame (d : Dot) (frame_num : Z) :
  in_frame d -> in_frame (update d frame_num).
Proof.
  intros Hf. destruct (is_moving d) eqn:Hm.
  - destruct (update_moving_fields d frame_num Hm) as (Hx & Hy & _).
    unfold in_frame. rewrite Hx, Hy. split.
    + apply py_clamp_bounds. unfold WIDTH. lra.
    + apply py_clamp_bounds. unfold HEIGHT. lra.
  - unfold update. rewrite Hm. exact Hf.
Qed.

(** X1.  A dot inside the frame stays inside the frame under any number
    of [update] calls; a moving dot is inside the frame after one call
    wherever it started. *)
Theorem advance_times_in_frame (d : Dot) (k : nat) :
  in_frame d ->
  in_frame (advance_times k d)
  /\ (forall (e : Dot) (frame_num : Z),
        is_moving e = true -> in_frame (update e frame_num)).
Proof.
  intros Hf. split.
  - induction k as [| j IH]; [exact Hf |].
    cbn [advance_times]. apply update_in_frame. exact IH.
  - intros e frame_num Hm.
    destruct (update_moving_fields e frame_num Hm) as (Hx & Hy & _).
    unfold in_frame. rewrite Hx, Hy. split.
    + apply py_clamp_bounds. unfold WIDTH. lra.
    + apply py_clamp_bounds. unfold HEIGHT. lra.
Qed.

Lemma corner_dot_in_frame : in_frame corner_dot.
Proof. unfold in_frame, corner_dot, WIDTH, HEIGHT. simpl. lra. Qed.

Lemma advance_times_in_frame_witness :
  in_frame corner_dot /\ in_frame (advance_times 3 corner_dot).
Proof.
  split.
  - exact corner_dot_in_frame.
  - exact (proj1 (advance_times_in_frame corner_dot 3 corner_dot_in_frame)).
Defined.

Lemma update_speed (d : Dot) (frame_num : Z) :
  Rabs (dx (update d frame_num)) = Rabs (dx d)
  /\ Rabs (dy (update d frame_num)) = Rabs (dy d).
Proof.
  destruct (is_moving d) eqn:Hm.
  - destruct (update_moving_fields d frame_num Hm)
      as (_ & _ & Hx1 & Hx2 & Hy1 & Hy2).
    split.
    + destruct (classic_hits (x d + dx d) WIDTH) as [H | H].
      * rewrite (Hx1 H). apply Rabs_Ropp.
      * now rewrite (Hx2 H).
    + destruct (classic_hits (y d + dy d) HEIGHT) as [H | H].
      * rewrite (Hy1 H). apply Rabs_Ropp.
      * now rewrite (Hy2 H).
  - unfold update. rewrite Hm. split; reflexivity.
Qed.

(** X2.  [update] changes a velocity component by its sign at most: the
    speed on each axis is the same after any number of calls. *)
Theorem advance_times_speed (d : Dot) (k : nat) :
  Rabs (dx (advance_times k d)) = Rabs (dx d)
  /\ Rabs (dy (advance_times k d)) = Rabs (dy d).
Proof.
  induction k as [| j [IHx IHy]]; [split; reflexivity |].
  cbn [advance_times].
  destruct (update_speed (advance_times j d) (Z.of_nat j)) as [Hx Hy].
  split; congruence.
Qed.

(** X3.  A dot that is not moving is, after any number of [update] calls,
    the dot it was: in particular it is still at its initial position if
    it was there before. *)
Theorem advance_times_not_moving (d : Dot) (k : nat) :
  is_moving d = false ->
  advance_times k d = d
  /\ (x d = initial_x d -> y d = initial_y d ->
      x (advance_times k d) = initial_x d
      /\ y (advance_times k d) = initial_y d).
Proof.
  intros Hm.
  assert (E : advance_times k d = d).
  { induction k as [| j IH]; [reflexivity |].
    cbn [advance_times]. rewrite IH. unfold update. now rewrite Hm. }
  rewrite E. split; [reflexivity | auto].
Qed.

Lemma advance_times_not_moving_witness :
  is_moving bright_dot = false /\ advance_times 5 bright_dot = bright_dot.
Proof.
  split.
  - reflexivity.
  - exact (proj1 (advance_times_not_moving bright_dot 5 eq_refl)).
Defined.

(** X4.  One [update] never moves a dot inside the frame against its
    velocity: on each axis the coordinate does not decrease when the
    velocity component is non-negative and does not increase when it is
    non-positive. *)
Theorem update_moves_along_velocity (d : Dot) (frame_num : Z) :
  in_frame d ->
  (0 <= dx d -> x d <= x (update d frame_num))
  /\ (dx d <= 0 -> x (update d frame_num) <= x d)
  /\ (0 <= dy d -> y d <= y (update d frame_num))
  /\ (dy d <= 0 -> y (update d frame_num) <= y d).
Proof.
  intros [Hx Hy]. destruct (is_moving d) eqn:Hm.
  - destruct (update_moving_fields d frame_num Hm) as (Ex & Ey & _).
    rewrite Ex, Ey. unfold py_max, py_min.
    repeat split; intros Hv;
      match goal with
      | |- context [Rlt_dec ?a ?b] => destruct (Rlt_dec a b)
      end;
      match goal with
      | |- context [Rgt_dec ?a ?b] => destruct (Rgt_dec a b)
      end; lra.
  - unfold update. rewrite Hm. repeat split; intros _; lra.
Qed.

Lemma update_moves_along_velocity_witness :
  in_frame corner_dot
  /\ 0 <= dx corner_dot
  /\ x corner_dot <= x (update corner_dot 0).
Proof.
  split; [exact corner_dot_in_frame | split].
  - unfold corner_dot. simpl. lra.
  - apply (proj1 (update_moves_along_velocity corner_dot 0
                    corner_dot_in_frame)).
    unfold corner_dot. simpl. lra.
Defined.

(** X5.  A bounce on the lower edge sends the dot back into the frame:
    when a moving dot at a non-negative abscissa, with a non-zero
    horizontal velocity smaller than the width, reaches [x <= 0], the
    [update] leaves it at 0 with the velocity negated, now positive, and
    the next [update] takes it to that velocity without a bounce. *)
Theorem update_bounce_at_zero_x (d : Dot) (n1 n2 : Z) :
  is_moving d = true ->
  0 <= x d ->
  dx d <> 0 ->
  Rabs (dx d) < IZR WIDTH ->
  x d + dx d <= 0 ->
  let d1 := update d n1 in
  x d1 = 0 /\ dx d1 = - dx d /\ 0 < dx d1
  /\ ~ hits (x d1 + dx d1) WIDTH
  /\ x (update d1 n2) = dx d1
  /\ dx (update d1 n2) = dx d1.
Proof.
  intros Hm Hx Hnz Hlt Hlow d1.
  assert (Hh : hits (x d + dx d) WIDTH) by (left; exact Hlow).
  destruct (update_moving_fields d n1 Hm) as (Ex & _ & Edx & _).
  specialize (Edx Hh). fold d1 in Ex, Edx.
  assert (Hneg : dx d < 0) by lra.
  assert (Hw : dx d > - IZR WIDTH).
  { unfold Rabs in Hlt. destruct (Rcase_abs (dx d)) in Hlt; lra. }
  assert (Ex0 : x d1 = 0).
  { rewrite Ex. unfold py_max, py_min, WIDTH in *.
    destruct (Rlt_dec (x d + dx d) 512);
      match goal with
      | |- context [Rgt_dec ?a ?b] => destruct (Rgt_dec a b)
      end; lra. }
  assert (Hm1 : is_moving d1 = true).
  { unfold d1. destruct (update_keeps_identity d n1) as (_ & _ & E & _).
    now rewrite E. }
  assert (Hno : ~ hits (x d1 + dx d1) WIDTH).
  { rewrite Ex0, Edx. unfold hits. lra. }
  destruct (update_moving_fields d1 n2 Hm1) as (Ex2 & _ & _ & Edx2 & _).
  split; [exact Ex0 | split; [exact Edx | split; [lra | split;
    [exact Hno | split]]]].
  - rewrite Ex2. rewrite py_clamp_inside.
    + rewrite Ex0. ring.
    + unfold hits in Hno. lra.
  - exact (Edx2 Hno).
Qed.

Lemma update_bounce_at_zero_x_witness :
  is_moving (mkDot 1 300 70 300 true false 0 (-2) 1) = true
  /\ x (update (mkDot 1 300 70 300 true false 0 (-2) 1) 0) = 0.
Proof.
  split; [reflexivity |].
  refine (proj1 (update_bounce_at_zero_x
                   (mkDot 1 300 70 300 true false 0 (-2) 1) 0 1
                   eq_refl _ _ _ _)).
  - simpl. lra.
  - simpl. lra.
  - unfold WIDTH. simpl. rewrite Rabs_left; lra.
  - simpl. lra.
Defined.

(** One [update] of a moving dot that the two additions leave strictly
    inside the frame is the two additions. *)
Lemma update_no_bounce (e : Dot) (frame_num : Z) :
  is_moving e = true ->
  0 < x e + dx e < IZR WIDTH ->
  0 < y e + dy e < IZR HEIGHT ->
  update e frame_num = advanced e.
Proof.
  intros Hm Hx Hy. rewrite (update_moving e frame_num Hm).
  rewrite bounce_x_miss.
  - apply bounce_y_miss. unfold hits, advanced. simpl. lra.
  - unfold hits, advanced. simpl. lra.
Qed.

(** The state of a dot that has kept to a straight line for [k] steps
    from inside the margin. *)
Lemma straight_invariant (d : Dot) (k : nat) :
  is_moving d = true ->
  in_margin d ->
  within_speed d ->
  (k <= 24)%nat ->
  is_moving (advance_times k d) = true
  /\ dx (advance_times k d) = dx d
  /\ dy (advance_times k d) = dy d
  /\ 50 - 2 * INR k <= x (advance_times k d) <= 462 + 2 * INR k
  /\ 50 - 2 * INR k <= y (advance_times k d) <= 462 + 2 * INR k
  /\ (forall j : nat,
        (j < k)%nat ->
        advance_times (S j) d = advanced (advance_times j d)).
Proof.
  intros Hm [Hx Hy] [Hvx Hvy] Hk.
  unfold WIDTH, HEIGHT, MOVE_SPEED in *. simpl in Hx, Hy.
  induction k as [| k IH].
  - simpl. repeat split; try assumption; try lra. intros j Hj. lia.
  - destruct IH as (Im & Idx & Idy & Ix & Iy & Ist); [lia |].
    assert (H1 : INR (S k) <= 24).
    { replace 24 with (INR 24) by (simpl; lra). now apply le_INR. }
    rewrite S_INR in H1. pose proof (pos_INR k) as H0.
    assert (E : advance_times (S k) d = advanced (advance_times k d)).
    { cbn [advance_times]. apply update_no_bounce.
      - exact Im.
      - rewrite Idx. unfold WIDTH. lra.
      - rewrite Idy. unfold HEIGHT. lra. }
    rewrite E, S_INR. unfold advanced at 1 2 3 4 5 6 7.
    cbn [x y dx dy is_moving set_x set_y].
    rewrite Idx, Idy.
    split; [exact Im | split; [reflexivity | split; [reflexivity |
      split; [lra | split; [lra |]]]]].
    intros j Hj. destruct (Nat.eq_dec j k) as [-> | Hne].
    + exact E.
    + apply Ist. lia.
Qed.

(** X6.  The margin of 50 that [create_dots] leaves around moving dots
    keeps them off the edges for the first 24 frames: for a moving dot
    that starts inside the margin with each velocity component in
    [[-MOVE_SPEED, MOVE_SPEED]], each of the first [k <= 24] calls of
    [update] is the two additions alone, without a bounce; the velocity is
    unchanged and the position is within [2 k] of the margin. *)
Theorem moving_dot_straight_start (d : Dot) (k : nat) :
  is_moving d = true ->
  in_margin d ->
  within_speed d ->
  (k <= 24)%nat ->
  dx (advance_times k d) = dx d
  /\ dy (advance_times k d) = dy d
  /\ 50 - 2 * INR k <= x (advance_times k d) <= 462 + 2 * INR k
  /\ 50 - 2 * INR k <= y (advance_times k d) <= 462 + 2 * INR k
  /\ (forall j : nat,
        (j < k)%nat ->
        advance_times (S j) d = advanced (advance_times j d)).
Proof.
  intros Hm Hin Hsp Hk.
  exact (proj2 (straight_invariant d k Hm Hin Hsp Hk)).
Qed.

Lemma moving_dot_straight_start_witness :
  is_moving (mkDot 100 200 100 200 true false 0 2 (-1)) = true
  /\ dx (advance_times 24 (mkDot 100 200 100 200 true false 0 2 (-1)))
     = 2.
Proof.
  split; [reflexivity |].
  refine (proj1 (moving_dot_straight_start
                   (mkDot 100 200 100 200 true false 0 2 (-1)) 24
                   eq_refl _ _ _)).
  - unfold in_margin, WIDTH, HEIGHT. simpl. lra.
  - unfold within_speed, MOVE_SPEED. simpl. lra.
  - lia.
Defined.

(** ** [Dot.get_size] and [update] *)

Lemma advance_times_keeps_identity (d : Dot) (k : nat) :
  initial_x (advance_times k d) = initial_x d
  /\ initial_y (advance_times k d) = initial_y d
  /\ is_moving (advance_times k d) = is_moving d
  /\ is_static_bright (advance_times k d) = is_static_bright d
  /\ phase (advance_times k d) = phase d.
Proof.
  induction k as [| j (I1 & I2 & I3 & I4 & I5)]; [repeat split |].
  cbn [advance_times].
  destruct (update_keeps_identity (advance_times j d) (Z.of_nat j))
    as (U1 & U2 & U3 & U4 & U5).
  repeat split; congruence.
Qed.

(** X7.  The size of a dot at a frame number does not depend on the
    [update] calls the dot has received, nor does its record in the
    manifest or its classification as a true event. *)
Theorem get_size_ignores_updates (d : Dot) (k : nat) (frame_num : Z) :
  get_size (advance_times k d) frame_num = get_size d frame_num
  /\ to_dict (advance_times k d) = to_dict d
  /\ is_true_event (advance_times k d) = is_true_event d.
Proof.
  destruct (advance_times_keeps_identity d k) as (I1 & I2 & I3 & I4 & I5).
  unfold get_size, to_dict, is_true_event.
  rewrite I1, I2, I3, I4, I5. repeat split.
Qed.

Lemma py_int_monotone (a b : R) :
  0 <= a -> a <= b -> (py_int a <= py_int b)%Z.
Proof.
  intros Ha Hab.
  destruct (py_int_bracket a Ha) as [A1 _].
  destruct (py_int_bracket b) as [_ B2]; [lra |].
  apply Z.lt_succ_r. apply lt_IZR. rewrite succ_IZR. lra.
Qed.

(** X8.  Among dots that are not static-bright the size grows with the
    sinusoid: a dot whose signal is not above another's is not larger. *)
Theorem get_size_monotone (d1 d2 : Dot) (n1 n2 : Z) :
  is_static_bright d1 = false ->
  is_static_bright d2 = false ->
  pulse_of d1 n1 <= pulse_of d2 n2 ->
  (get_size d1 n1 <= get_size d2 n2)%Z.
Proof.
  intros H1 H2 Hp.
  rewrite (get_size_pulsating_eq d1 n1 H1), (get_size_pulsating_eq d2 n2 H2).
  apply py_int_monotone.
  - apply scaled_pulse_range.
  - unfold MAX_DOT_SIZE. lra.
Qed.

Lemma get_size_monotone_witness :
  is_static_bright faint_dot = false
  /\ (get_size faint_dot 0 <= get_size faint_dot 1)%Z.
Proof.
  split; [reflexivity |].
  apply (get_size_monotone faint_dot faint_dot 0 1 eq_refl eq_refl).
  rewrite pulse_faint_dot_0. apply SIN_bound.
Defined.

(** ** The summary of [save_dot_list] *)

Lemma filter_split_length (f g : Dot -> bool) (l : list Dot) :
  (forall d, g d = negb (f d)) ->
  (List.length (filter f l) + List.length (filter g l))%nat = List.length l.
Proof.
  intros Hg. induction l as [| d l IH]; [reflexivity |].
  cbn [filter]. rewrite (Hg d). destruct (f d); simpl; lia.
Qed.

Lemma is_false_event_negb (d : Dot) :
  is_false_event d = negb (is_true_event d).
Proof.
  unfold is_false_event, is_true_event.
  destruct (is_moving d), (is_static_bright d); reflexivity.
Qed.

(** X10.  For any list of dots the summary of [save_dot_list] adds up:
    the true events are the dots with neither flag set, the false events
    are the dots that are moving or static-bright, the two counts are
    non-negative and their sum is the total, which is the length of the
    list and of the manifest. *)
Theorem save_dot_list_summary (dots : list Dot) :
  let summary := snd (save_dot_list dots) in
  true_events summary = Z.of_nat (List.length (filter is_true_event dots))
  /\ false_events summary
     = Z.of_nat (List.length (filter is_false_event dots))
  /\ total_dots summary = Z.of_nat (List.length dots)
  /\ (true_events summary + false_events summary = total_dots summary)%Z
  /\ (0 <= true_events summary <= total_dots summary)%Z
  /\ (0 <= false_events summary <= total_dots summary)%Z
  /\ List.length (fst (save_dot_list dots)) = List.length dots.
Proof.
  intros summary.
  assert (Hsum : summary
                 = mkSummary
                     (Z.of_nat (List.length (filter is_true_event dots)))
                     (Z.of_nat (List.length dots)
                      - Z.of_nat (List.length (filter is_true_event dots)))
                     (Z.of_nat (List.length dots))).
  { unfold summary, save_dot_list. cbn [snd].
    rewrite py_sum_ones. reflexivity. }
  pose proof (filter_split_length is_true_event is_false_event dots
                is_false_event_negb) as Hsplit.
  rewrite Hsum. cbn [true_events false_events total_dots].
  repeat split; try lia.
  unfold save_dot_list. cbn [fst]. apply length_map.
Qed.

(** ** Runs of [update] on dots inside the frame *)

Lemma advance_in_frame (d : Dot) (k : nat) :
  in_frame d -> in_frame (advance_times k d).
Proof.
  intros Hf. induction k as [| j IH]; [exact Hf |].
  cbn [advance_times]. apply update_in_frame. exact IH.
Qed.

(** The centre handed to [cv2.circle] for a dot inside the frame. *)
Lemma in_frame_centre (d : Dot) :
  in_frame d ->
  (0 <= py_int (x d) <= WIDTH)%Z /\ (0 <= py_int (y d) <= HEIGHT)%Z.
Proof.
  intros [Hx Hy]. split; apply py_int_range; try lia; assumption.
Qed.

Lemma filter_true_event_map (f : Dot -> Dot) (l : list Dot) :
  (forall d, is_true_event (f d) = is_true_event d) ->
  List.length (filter is_true_event (map f l))
  = List.length (filter is_true_event l).
Proof.
  intros Hf. induction l as [| d l IH]; [reflexivity |].
  cbn [map filter]. rewrite Hf. destruct (is_true_event d); simpl; lia.
Qed.

(** [save_dot_list] sees no difference between a list of dots and the
    list after a map that keeps records and classification. *)
Lemma save_dot_list_map (f : Dot -> Dot) (l : list Dot) :
  (forall d, to_dict (f d) = to_dict d) ->
  (forall d, is_true_event (f d) = is_true_event d) ->
  save_dot_list (map f l) = save_dot_list l.
Proof.
  intros Hd Ht. unfold save_dot_list.
  rewrite !py_sum_ones, (filter_true_event_map f l Ht).
  unfold py_len. rewrite length_map, map_map.
  rewrite (map_ext _ _ Hd). reflexivity.
Qed.

(** * Further properties of the program with its collaborators *)

Section FurtherProgramProperties.

Context `{Ext : External}.

(** ** [create_dots] for any values of the constants *)

(** X11.  Whatever the values of the three constants, [create_dots]
    returns as many moving, static-bright and other dots as the three
    counts say, a negative count standing for none.  With non-negative
    counts the list has [num_dots] dots; when the two fractions ask for
    more than [num_dots], so that the third count is negative, there is
    no true event and the list is longer than [num_dots]. *)
Theorem create_dots_with_length (num_dots : Z) (p q : R) (rng : Rng) :
  let dots := fst (create_dots_with num_dots p q rng) in
  let nm := num_moving_of num_dots p in
  let ns := num_static_bright_of num_dots q in
  let np := num_pulsating_of num_dots p q in
  List.length (filter is_moving dots) = Z.to_nat nm
  /\ List.length (filter is_static_bright dots) = Z.to_nat ns
  /\ List.length (filter is_true_event dots) = Z.to_nat np
  /\ List.length dots = (Z.to_nat nm + Z.to_nat ns + Z.to_nat np)%nat
  /\ ((0 <= nm)%Z -> (0 <= ns)%Z -> (0 <= np)%Z ->
      List.length dots = Z.to_nat num_dots)
  /\ ((0 <= nm)%Z -> (0 <= ns)%Z -> (np < 0)%Z ->
      List.length (filter is_true_event dots) = 0%nat
      /\ (Z.of_nat (List.length dots) > num_dots)%Z).
Proof.
  intros dots nm ns np.
  destruct (create_dots_with_blocks num_dots p q rng)
    as (l1 & l2 & l3 & E & L1 & L2 & L3 & F1 & F2 & F3).
  fold dots in E. fold nm in L1. fold ns in L2. fold np in L3.
  clearbody dots. subst dots.
  assert (Hm : List.length (filter is_moving (l1 ++ l2 ++ l3))
               = Z.to_nat nm).
  { rewrite (count_three_blocks is_moving true false false).
    - lia.
    - eapply Forall_impl; [| exact F1]. apply created_is_moving.
    - eapply Forall_impl; [| exact F2]. apply created_is_moving.
    - eapply Forall_impl; [| exact F3]. apply created_is_moving. }
  assert (Hs : List.length (filter is_static_bright (l1 ++ l2 ++ l3))
               = Z.to_nat ns).
  { rewrite (count_three_blocks is_static_bright false true false).
    - lia.
    - eapply Forall_impl; [| exact F1]. apply created_is_static_bright.
    - eapply Forall_impl; [| exact F2]. apply created_is_static_bright.
    - eapply Forall_impl; [| exact F3]. apply created_is_static_bright. }
  assert (Ht : List.length (filter is_true_event (l1 ++ l2 ++ l3))
               = Z.to_nat np).
  { rewrite (count_three_blocks is_true_event false false true).
    - lia.
    - eapply Forall_impl; [| exact F1]. apply created_is_true_event.
    - eapply Forall_impl; [| exact F2]. apply created_is_true_event.
    - eapply Forall_impl; [| exact F3]. apply created_is_true_event. }
  assert (Hl : List.length (l1 ++ l2 ++ l3)
               = (Z.to_nat nm + Z.to_nat ns + Z.to_nat np)%nat)
    by (rewrite !length_app; lia).
  assert (Hnp : np = (num_dots - nm - ns)%Z) by reflexivity.
  split; [exact Hm | split; [exact Hs | split; [exact Ht |
    split; [exact Hl | split]]]].
  - intros H1 H2 H3. rewrite Hl. lia.
  - intros H1 H2 H3. rewrite Ht, Hl. split; lia.
Qed.

(** ** [create_dots] with a random source that keeps its ranges *)

Lemma create_dots_with_Forall (P : Dot -> Prop) (num_dots : Z) (p q : R)
    (s : Rng) :
  (forall s', P (fst (new_moving_dot s'))) ->
  (forall s', P (fst (new_static_bright_dot s'))) ->
  (forall s', P (fst (new_pulsating_dot s'))) ->
  Forall P (fst (create_dots_with num_dots p q s)).
Proof.
  intros H1 H2 H3. unfold create_dots_with, bind.
  destruct (append_loop_spec P _ H1
              (Z.to_nat (num_moving_of num_dots p)) [] s)
    as (l1 & E1 & _ & F1).
  destruct (append_loop _ new_moving_dot [] s) as [d1 s1].
  simpl in E1. subst d1.
  destruct (append_loop_spec P _ H2
              (Z.to_nat (num_static_bright_of num_dots q)) l1 s1)
    as (l2 & E2 & _ & F2).
  destruct (append_loop _ new_static_bright_dot l1 s1) as [d2 s2].
  simpl in E2. subst d2.
  destruct (append_loop_spec P _ H3
              (Z.to_nat (num_pulsating_of num_dots p q)) (l1 ++ l2) s2)
    as (l3 & E3 & _ & F3).
  destruct (append_loop _ new_pulsating_dot (l1 ++ l2) s2) as [d3 s3].
  simpl in E3. subst d3.
  unfold ret. cbn [fst]. rewrite !Forall_app. auto.
Qed.

Lemma Dot_init_range (x0 y0 : R) (m sb : bool) (s : Rng) :
  rng_in_range ->
  let d := fst (Dot_init x0 y0 m sb s) in
  x d = x0 /\ y d = y0 /\ is_moving d = m
  /\ within_speed d /\ 0 <= phase d <= 2 * PI
  /\ (m = false -> dx d = 0 /\ dy d = 0).
Proof.
  intros [_ Hu]. unfold Dot_init, bind, ret.
  assert (Hpi : 0 <= 2 * PI) by (pose proof PI_RGT_0; lra).
  pose proof (Hu 0 (2 * PI) s Hpi) as Hph.
  destruct (uniform 0 (2 * PI) s) as [ph s1]. cbn [fst] in Hph.
  assert (Hsp : - IZR MOVE_SPEED <= IZR MOVE_SPEED)
    by (unfold MOVE_SPEED; lra).
  destruct m.
  - pose proof (Hu _ _ s1 Hsp) as Hvx.
    destruct (uniform (- IZR MOVE_SPEED) (IZR MOVE_SPEED) s1) as [vx s2].
    pose proof (Hu _ _ s2 Hsp) as Hvy.
    destruct (uniform (- IZR MOVE_SPEED) (IZR MOVE_SPEED) s2) as [vy s3].
    cbn [fst] in Hvx, Hvy. unfold within_speed. simpl.
    repeat split; try tauto; discriminate.
  - unfold within_speed. simpl.
    repeat split; try tauto; unfold MOVE_SPEED; lra.
Qed.

Lemma new_dot_well_started (s : Rng) :
  rng_in_range ->
  well_started (fst (new_moving_dot s))
  /\ well_started (fst (new_static_bright_dot s))
  /\ well_started (fst (new_pulsating_dot s)).
Proof.
  intros Hr. pose proof Hr as [Hi _].
  assert (B1 : (50 <= WIDTH - 50)%Z) by (unfold WIDTH; lia).
  assert (B2 : (50 <= HEIGHT - 50)%Z) by (unfold HEIGHT; lia).
  assert (B3 : (0 <= WIDTH)%Z) by (unfold WIDTH; lia).
  assert (B4 : (0 <= HEIGHT)%Z) by (unfold HEIGHT; lia).
  split; [| split].
  - unfold new_moving_dot, bind.
    pose proof (Hi 50%Z (WIDTH - 50)%Z s B1) as Hx.
    destruct (randint 50 (WIDTH - 50) s) as [x0 s1].
    pose proof (Hi 50%Z (HEIGHT - 50)%Z s1 B2) as Hy.
    destruct (randint 50 (HEIGHT - 50) s1) as [y0 s2].
    cbn [fst] in Hx, Hy.
    destruct (Dot_init_range (IZR x0) (IZR y0) true false s2 Hr)
      as (Ex & Ey & Em & Hs & Hp & _).
    assert (Hx' : 50 <= IZR x0 <= IZR (WIDTH - 50))
      by (split; apply IZR_le; lia).
    assert (Hy' : 50 <= IZR y0 <= IZR (HEIGHT - 50))
      by (split; apply IZR_le; lia).
    unfold well_started. rewrite Em.
    split; [| split; [exact Hs | split; [exact Hp | split]]].
    + unfold in_frame. rewrite Ex, Ey.
      unfold WIDTH, HEIGHT in *. simpl in Hx', Hy'. lra.
    + intros _. unfold in_margin. rewrite Ex, Ey. exact (conj Hx' Hy').
    + intros Hf. discriminate Hf.
  - unfold new_static_bright_dot, bind.
    pose proof (Hi 0%Z WIDTH s B3) as Hx.
    destruct (randint 0 WIDTH s) as [x0 s1].
    pose proof (Hi 0%Z HEIGHT s1 B4) as Hy.
    destruct (randint 0 HEIGHT s1) as [y0 s2].
    cbn [fst] in Hx, Hy.
    destruct (Dot_init_range (IZR x0) (IZR y0) false true s2 Hr)
      as (Ex & Ey & Em & Hs & Hp & Hz).
    assert (Hx' : 0 <= IZR x0 <= IZR WIDTH) by (split; apply IZR_le; lia).
    assert (Hy' : 0 <= IZR y0 <= IZR HEIGHT) by (split; apply IZR_le; lia).
    unfold well_started. rewrite Em.
    split; [| split; [exact Hs | split; [exact Hp | split]]].
    + unfold in_frame. rewrite Ex, Ey. exact (conj Hx' Hy').
    + intros Hf. discriminate Hf.
    + intros _. apply Hz. reflexivity.
  - unfold new_pulsating_dot, bind.
    pose proof (Hi 0%Z WIDTH s B3) as Hx.
    destruct (randint 0 WIDTH s) as [x0 s1].
    pose proof (Hi 0%Z HEIGHT s1 B4) as Hy.
    destruct (randint 0 HEIGHT s1) as [y0 s2].
    cbn [fst] in Hx, Hy.
    destruct (Dot_init_range (IZR x0) (IZR y0) false false s2 Hr)
      as (Ex & Ey & Em & Hs & Hp & Hz).
    assert (Hx' : 0 <= IZR x0 <= IZR WIDTH) by (split; apply IZR_le; lia).
    assert (Hy' : 0 <= IZR y0 <= IZR HEIGHT) by (split; apply IZR_le; lia).
    unfold well_started. rewrite Em.
    split; [| split; [exact Hs | split; [exact Hp | split]]].
    + unfold in_frame. rewrite Ex, Ey. exact (conj Hx' Hy').
    + intros Hf. discriminate Hf.
    + intros _. apply Hz. reflexivity.
Qed.

Lemma create_dots_well_started (rng : Rng) :
  rng_in_range -> Forall well_started (fst (create_dots rng)).
Proof.
  intros Hr. apply create_dots_with_Forall; intros s';
    apply (new_dot_well_started s' Hr).
Qed.

(** X12.  When [randint] and [uniform] return values of the ranges they
    are given, every dot [create_dots] returns starts inside the frame
    (inside the margin of 50 if it moves), with velocity components in
    [[-MOVE_SPEED, MOVE_SPEED]] (zero if it does not move) and a phase
    in [[0, 2 pi]]. *)
Theorem create_dots_in_range (rng : Rng) :
  rng_in_range ->
  Forall (fun d =>
            in_frame d /\ within_speed d /\ 0 <= phase d <= 2 * PI
            /\ (is_moving d = true -> in_margin d)
            /\ (is_moving d = false -> dx d = 0 /\ dy d = 0))
         (fst (create_dots rng)).
Proof.
  intros Hr. exact (create_dots_well_started rng Hr).
Qed.

(** X13.  With such a random source every dot is inside the frame at
    every point of a run: after any number of render calls, the dots of
    [create_dots] lie in [[0, WIDTH]] x [[0, HEIGHT]], so that the centre
    handed to [cv2.circle] has integer coordinates in [[0, WIDTH]] and
    [[0, HEIGHT]]. *)
Theorem run_stays_in_frame (rng : Rng) (k : nat) :
  rng_in_range ->
  Forall (fun d =>
            in_frame d
            /\ (0 <= py_int (x d) <= WIDTH)%Z
            /\ (0 <= py_int (y d) <= HEIGHT)%Z)
         (dots_after (fst (create_dots rng)) k).
Proof.
  intros Hr. rewrite dots_after_advance. apply Forall_map.
  eapply Forall_impl; [| exact (create_dots_well_started rng Hr)].
  intros d (Hf & _).
  pose proof (advance_in_frame d k Hf) as Hk.
  split; [exact Hk | apply in_frame_centre; exact Hk].
Qed.

(** ** [draw_frame] and the population *)

Lemma update_keeps_record (frame_num : Z) (d : Dot) :
  to_dict (update d frame_num) = to_dict d.
Proof.
  destruct (update_keeps_identity d frame_num) as (I1 & I2 & I3 & I4 & _).
  unfold to_dict, is_true_event. now rewrite I1, I2, I3, I4.
Qed.

Lemma update_keeps_true_event (frame_num : Z) (d : Dot) :
  is_true_event (update d frame_num) = is_true_event d.
Proof.
  destruct (update_keeps_identity d frame_num) as (_ & _ & I3 & I4 & _).
  unfold is_true_event. now rewrite I3, I4.
Qed.

Lemma draw_frame_dots (dots : list Dot) (frame_num : Z) :
  snd (draw_frame dots frame_num) = map (fun d => update d frame_num) dots.
Proof. rewrite draw_frame_eq. reflexivity. Qed.

(** X14.  A render call keeps the population: [draw_frame] leaves as
    many dots as it was given, in the same order, and [save_dot_list]
    writes the same manifest and the same summary for them, after one call
    and after any number of calls.  The manifest does not depend on when
    in the run it is written. *)
Theorem draw_frame_keeps_population (dots : list Dot) (frame_num : Z) :
  let dots1 := snd (draw_frame dots frame_num) in
  List.length dots1 = List.length dots
  /\ map to_dict dots1 = map to_dict dots
  /\ map category_of dots1 = map category_of dots
  /\ save_dot_list dots1 = save_dot_list dots
  /\ (forall k : nat,
        List.length (dots_after dots k) = List.length dots
        /\ save_dot_list (dots_after dots k) = save_dot_list dots).
Proof.
  intros dots1. unfold dots1. rewrite draw_frame_dots.
  split; [| split; [| split; [| split]]].
  - apply length_map.
  - rewrite map_map. apply map_ext. apply update_keeps_record.
  - rewrite map_map. apply map_ext. intros d.
    destruct (update_keeps_identity d frame_num) as (_ & _ & I3 & I4 & _).
    unfold category_of. now rewrite I3, I4.
  - apply save_dot_list_map.
    + apply update_keeps_record.
    + apply update_keeps_true_event.
  - intros k. rewrite dots_after_advance. split.
    + apply length_map.
    + apply save_dot_list_map; intros d.
      * destruct (advance_times_keeps_identity d k)
          as (I1 & I2 & I3 & I4 & _).
        unfold to_dict, is_true_event. now rewrite I1, I2, I3, I4.
      * destruct (advance_times_keeps_identity d k)
          as (_ & _ & I3 & I4 & _).
        unfold is_true_event. now rewrite I3, I4.
Qed.

(** X15.  A static-bright dot is drawn in every frame, as a filled white
    circle of radius 10 centred at its position truncated to integers;
    if it does not move, the centre is the same in every frame. *)
Theorem static_bright_always_drawn (d : Dot) (frame_num : Z)
    (st : Frame * list Dot) :
  is_static_bright d = true ->
  fst (draw_dot frame_num st d)
  = cv2_circle (fst st)
      (py_int (x (update d frame_num)), py_int (y (update d frame_num)))
      10%Z (255, 255, 255)%Z (-1)%Z
  /\ (is_moving d = false ->
      fst (draw_dot frame_num st d)
      = cv2_circle (fst st) (py_int (x d), py_int (y d))
          10%Z (255, 255, 255)%Z (-1)%Z).
Proof.
  intros Hs.
  assert (Hs' : is_static_bright (update d frame_num) = true).
  { destruct (update_keeps_identity d frame_num) as (_ & _ & _ & I4 & _).
    now rewrite I4. }
  assert (E : fst (draw_dot frame_num st d)
              = cv2_circle (fst st)
                  (py_int (x (update d frame_num)),
                   py_int (y (update d frame_num)))
                  10%Z (255, 255, 255)%Z (-1)%Z).
  { unfold draw_dot. cbn [fst].
    rewrite (get_size_static_bright _ frame_num Hs'). reflexivity. }
  split; [exact E |].
  intros Hm. rewrite E. unfold update. now rewrite Hm.
Qed.

(** X16.  A frame in which no dot has a positive size is the blur of the
    blank buffer: nothing is drawn on it.  This is the frame of an empty
    population. *)
Theorem draw_frame_all_invisible (dots : list Dot) (frame_num : Z) :
  Forall (fun d => get_size (update d frame_num) frame_num = 0%Z) dots ->
  fst (draw_frame dots frame_num)
  = cv2_GaussianBlur (np_zeros HEIGHT WIDTH 3)
      (BLUR_KERNEL_SIZE, BLUR_KERNEL_SIZE) BLUR_SIGMA.
Proof.
  intros Hall. rewrite draw_frame_eq. cbn [fst].
  replace (filter (visible frame_num)
             (map (fun d => update d frame_num) dots)) with (@nil Dot);
    [reflexivity |].
  symmetry. induction Hall as [| d l Hd _ IH]; [reflexivity |].
  cbn [map filter]. unfold visible at 1. rewrite Hd. exact IH.
Qed.

(** ** The frame loop for any number of frames *)

(** X17.  The frame loop returns as many frames as [range] has numbers:
    [frames] of them for a non-negative count, none for a negative one, in
    which case the dots are returned as they were given.  It always
    returns as many dots as it was given. *)
Theorem frame_loop_count (dots : list Dot) (frames : Z) :
  List.length (fst (frame_loop dots frames)) = Z.to_nat frames
  /\ List.length (snd (frame_loop dots frames)) = List.length dots
  /\ ((frames <= 0)%Z -> frame_loop dots frames = ([], dots)).
Proof.
  rewrite frame_loop_eq. cbn [fst snd]. split; [| split].
  - rewrite length_map, length_seq. reflexivity.
  - rewrite dots_after_advance. apply length_map.
  - intros Hn. replace (Z.to_nat frames) with 0%nat by lia. reflexivity.
Qed.

(** ** [main] *)

(** X18.  The manifest that [main] writes before the frame loop still
    describes the dots at the end of the run: [save_dot_list] on the dots
    the run leaves gives the same records and the same summary.  The run
    leaves as many dots as [create_dots] made. *)
Theorem main_manifest_stable (rng : Rng) :
  let out := fst (main rng) in
  save_dot_list (out_dots out) = (out_dot_list out, out_summary out)
  /\ List.length (out_dots out) = List.length (fst (create_dots rng))
  /\ List.length (out_dot_list out) = List.length (out_dots out).
Proof.
  intros out. unfold out, main, bind.
  destruct (create_dots rng) as [ds s1]. cbn [fst].
  destruct (save_dot_list ds) as [dl sm] eqn:Es.
  rewrite frame_loop_eq. cbn [ret fst out_dots out_dot_list out_summary].
  rewrite dots_after_advance.
  assert (E : save_dot_list (map (advance_times (Z.to_nat FRAMES)) ds)
              = save_dot_list ds).
  { apply save_dot_list_map; intros d.
    - destruct (advance_times_keeps_identity d (Z.to_nat FRAMES))
        as (I1 & I2 & I3 & I4 & _).
      unfold to_dict, is_true_event. now rewrite I1, I2, I3, I4.
    - destruct (advance_times_keeps_identity d (Z.to_nat FRAMES))
        as (_ & _ & I3 & I4 & _).
      unfold is_true_event. now rewrite I3, I4. }
  split; [| split].
  - rewrite E. exact Es.
  - apply length_map.
  - rewrite length_map. unfold save_dot_list in Es. inversion Es.
    apply length_map.
Qed.

End FurtherProgramProperties.

(** ** The further properties on stand-in collaborators *)

Lemma demo_rng_in_range : @rng_in_range demo.
Proof.
  unfold rng_in_range. cbn [Rng randint uniform demo].
  unfold demo_randint, demo_uniform. cbn [fst].
  split; intros a b s Hab; [lia | lra].
Qed.

Lemma create_dots_in_range_witness :
  @rng_in_range demo
  /\ Forall (fun d => in_frame d /\ within_speed d /\ 0 <= phase d <= 2 * PI
                      /\ (is_moving d = true -> in_margin d)
                      /\ (is_moving d = false -> dx d = 0 /\ dy d = 0))
            (fst (@create_dots demo 0%nat)).
Proof.
  split.
  - exact demo_rng_in_range.
  - exact (@create_dots_in_range demo 0%nat demo_rng_in_range).
Defined.

Lemma run_stays_in_frame_witness :
  @rng_in_range demo
  /\ Forall (fun d => in_frame d
                      /\ (0 <= py_int (x d) <= WIDTH)%Z
                      /\ (0 <= py_int (y d) <= HEIGHT)%Z)
            (@dots_after demo (fst (@create_dots demo 0%nat)) 7).
Proof.
  split.
  - exact demo_rng_in_range.
  - exact (@run_stays_in_frame demo 0%nat 7 demo_rng_in_range).
Defined.

Lemma static_bright_always_drawn_witness :
  is_static_bright bright_dot = true
  /\ fst (@draw_dot demo 9 ([], []) bright_dot)
     = @cv2_circle demo []
         (py_int (x (update bright_dot 9)), py_int (y (update bright_dot 9)))
         10%Z (255, 255, 255)%Z (-1)%Z.
Proof.
  split; [reflexivity |].
  exact (proj1 (@static_bright_always_drawn demo bright_dot 9 ([], [])
                  eq_refl)).
Defined.

Lemma faint_dot_invisible_0 : get_size (update faint_dot 0) 0 = 0%Z.
Proof.
  apply get_size_zero_low; [reflexivity |].
  change (update faint_dot 0) with faint_dot.
  rewrite pulse_faint_dot_0. lra.
Qed.

Lemma draw_frame_all_invisible_witness :
  Forall (fun d => get_size (update d 0) 0 = 0%Z) [faint_dot; faint_dot]
  /\ fst (@draw_frame demo [faint_dot; faint_dot] 0)
     = @cv2_GaussianBlur demo (np_zeros HEIGHT WIDTH 3)
         (BLUR_KERNEL_SIZE, BLUR_KERNEL_SIZE) BLUR_SIGMA.
Proof.
  assert (H : Forall (fun d => get_size (update d 0) 0 = 0%Z)
                [faint_dot; faint_dot]).
  { repeat constructor; exact faint_dot_invisible_0. }
  split; [exact H |].
  exact (@draw_frame_all_invisible demo [faint_dot; faint_dot] 0 H).
Defined.
